(** * aci_vmm_controller: the VMM controller profile module

    A shallow embedding of
    [lib/ansible/modules/network/aci/aci_vmm_controller.py] and the
    properties its specification states about it.

    The module is parameter plumbing around two collaborators that live
    elsewhere in the tree: [AnsibleModule] (argument handling) and
    [ACIModule] (the REST client).  [main] is embedded from the source,
    exceptions included; the client is an interface ([ACIClient]) that
    [main] is parametric in, and the few things the properties need from
    the collaborators are modelled from the specification and marked as
    such. *)

From Stdlib Require Import Ascii String.
From stdpp Require Import base option strings list gmap fin_maps.

Local Open Scope string_scope.
Local Open Scope list_scope.

(** ** Python values and string formatting *)

(** A parameter read from [module.params] is a [str] or [None]. *)
Abbreviation pyval := (option string).

(** [str(v)]: what [str.format] substitutes for a value. *)
Definition py_str (v : pyval) : string := default "None" v.

(** Exceptions that can escape [main].  [TypeError method keyword] is
    "method() got an unexpected keyword argument 'keyword'". *)
Inductive exn :=
| KeyError (key : pyval)
| IndexError
| ValueError
| TypeError (method keyword : string).

Definition is_digit (c : ascii) : bool :=
  (48 <=? nat_of_ascii c)%nat && (nat_of_ascii c <=? 57)%nat.

Definition digit_value (c : ascii) : nat := nat_of_ascii c - 48.

(** [tmpl.format(a0, a1, ...)] for templates whose replacement fields are
    the one-digit positional ones, [{0}] to [{9}], which is what the
    templates of this module use.  A field past the end of [args] raises
    [IndexError]; any other use of a brace (escapes, named and
    auto-numbered fields) is outside this fragment and is answered with
    [ValueError]. *)
Fixpoint format (tmpl : string) (args : list string) : exn + string :=
  match tmpl with
  | EmptyString => inr EmptyString
  | String c tl =>
      if Ascii.eqb c "{" then
        match tl with
        | String d (String close rest) =>
            if is_digit d && Ascii.eqb close "}" then
              match args !! digit_value d, format rest args with
              | Some a, inr s => inr (a +:+ s)
              | None, _ => inl IndexError
              | _, inl e => inl e
              end
            else inl ValueError
        | _ => inl ValueError
        end
      else if Ascii.eqb c "}" then inl ValueError
      else
        match format tl args with
        | inr s => inr (String c s)
        | inl e => inl e
        end
  end.

(** [s.startswith(t)] *)
Fixpoint starts_with (t s : string) : bool :=
  match t with
  | EmptyString => true
  | String a t' =>
      match s with
      | EmptyString => false
      | String b s' => Ascii.eqb a b && starts_with t' s'
      end
  end.

(** Substring test, [t in s]. *)
Fixpoint contains (t s : string) : bool :=
  starts_with t s ||
  match s with
  | EmptyString => false
  | String _ s' => contains t s'
  end.

(** ** The provider table (source lines 231-239) *)

Definition VM_PROVIDER_MAPPING : list (string * string) :=
  [ ("cloudfoundry", "CloudFoundry");
    ("kubernetes", "Kubernetes");
    ("microsoft", "Microsoft");
    ("openshift", "OpenShift");
    ("openstack", "OpenStack");
    ("redhat", "Redhat");
    ("vmware", "VMware") ].

(** [d.keys()] *)
Definition keys {A} (d : list (string * A)) : list string := d.*1.

(** [d.values()] *)
Definition values {A} (d : list (string * A)) : list A := d.*2.

(** [d.get(k)] on a dict written as an association list. *)
Fixpoint dict_get {A} (d : list (string * A)) (k : string) : option A :=
  match d with
  | [] => None
  | (k', v) :: d' => if decide (k' = k) then Some v else dict_get d' k
  end.

(** [d[k]]: subscripting raises [KeyError] when the key is missing; the
    key [None] is never in a table of string keys. *)
Definition getitem {A} (d : list (string * A)) (k : pyval) : exn + A :=
  match k with
  | None => inl (KeyError None)
  | Some s =>
      match dict_get d s with
      | Some v => inr v
      | None => inl (KeyError (Some s))
      end
  end.

(** ** The argument specification (source lines 243-262) *)

Record option_spec := {
  type : string;
  aliases : list string;
  default_value : option string;
  choices : option (list string);
}.

#[global] Instance option_spec_eq_dec : EqDecision option_spec.
Proof. solve_decision. Defined.

Definition str_option (als : list string) : option_spec :=
  {| type := "str"; aliases := als; default_value := None; choices := None |}.

(** Modelled from the spec: [aci_argument_spec()] of
    [module_utils/network/aci/aci.py], outside this module.  It
    declares the connection options of the client (host, credentials);
    the input record of the specification (section 4.1) has none of them,
    so it contributes no field here. *)
Definition aci_argument_spec : list (string * option_spec) := [].

(** [d.update(new)]: the entries of [new] replace those of [d] with the
    same key. *)
Definition update {A} (d new : list (string * A)) : list (string * A) :=
  filter (λ e, e.1 ∉ new.*1) d ++ new.

Definition argument_spec : list (string * option_spec) :=
  update aci_argument_spec
  [ ("name", str_option ["credential_name"; "credential_profile"]);
    ("container", str_option ["datacenter"]);
    ("credential", str_option ["credential_name, credential_profile"]);
    ("description", str_option ["descr"]);
    ("domain", str_option ["domain_name"; "domain_profile"]);
    ("host_or_ip", str_option ["controller_hostname"; "controller_ip"]);
    ("state",
      {| type := "str"; aliases := []; default_value := Some "present";
         choices := Some ["absent"; "present"; "query"] |});
    ("vm_provider",
      {| type := "str"; aliases := []; default_value := None;
         choices := Some (keys VM_PROVIDER_MAPPING) |}) ].

(** [required_if]: when option [key] has value [val], the listed options
    are required. *)
Definition required_if : list (string * string * list string) :=
  [ ("state", "absent", ["domain"]);
    ("state", "present", ["domain"]) ].

(** The aliases the module's own DOCUMENTATION block (source lines 20-64)
    declares, kept for comparison with [argument_spec]. *)
Definition documented_aliases : list (string * list string) :=
  [ ("name", ["controller_name"; "controller_profile"]);
    ("container", ["datacenter"]);
    ("credential", ["credential_name"; "credential_profile"]);
    ("description", ["descr"]);
    ("domain", ["domain_name"; "domain_profile"; "name"]);
    ("host_or_ip", ["controller_hostname"; "controller_ip"]) ].

(** ** AnsibleModule: argument handling *)

Inductive config_error :=
| invalid_choice (option_name value : string)
| missing_required (key val : string) (missing : list string).

(** The first of [names] a value is supplied under. *)
Fixpoint first_supplied (raw : gmap string string) (names : list string)
  : option string :=
  match names with
  | [] => None
  | k :: ks =>
      match raw !! k with
      | Some v => Some v
      | None => first_supplied raw ks
      end
  end.

(** Modelled from the spec: alias resolution of [AnsibleModule]
    ([module_utils/basic.py], outside this module).  Section 6: it is a
    pure renaming, so an option takes the value supplied under its own
    name or under one of its aliases; an option that is not supplied
    takes its default, if it has one. *)
Definition resolve_option (raw : gmap string string)
    (name : string) (o : option_spec) : option string :=
  match first_supplied raw (name :: aliases o) with
  | Some v => Some v
  | None => default_value o
  end.

Definition resolve (spec : list (string * option_spec))
    (raw : gmap string string) : gmap string string :=
  foldr (λ e ps,
           match resolve_option raw e.1 e.2 with
           | Some v => <[e.1 := v]> ps
           | None => ps
           end) ∅ spec.

(** Modelled from the spec: the enumeration constraint of [AnsibleModule]
    (section 4.1, "enumeration of 7 fixed tokens"; step 2, "guarded
    upstream by the enumeration constraint").  Only a supplied value is
    checked: every input is optional. *)
Fixpoint check_choices (spec : list (string * option_spec))
    (ps : gmap string string) : option config_error :=
  match spec with
  | [] => None
  | (k, o) :: spec' =>
      match choices o, ps !! k with
      | Some cs, Some v =>
          if bool_decide (v ∈ cs) then check_choices spec' ps
          else Some (invalid_choice k v)
      | _, _ => check_choices spec' ps
      end
  end.

(** A parameter is empty when it is absent or the empty string. *)
Definition is_empty (v : pyval) : bool :=
  match v with
  | None => true
  | Some s => bool_decide (s = "")
  end.

(** Modelled from the spec: the [required_if] check of [AnsibleModule]
    (step 1: "if state is present or absent, domain must be non-empty;
    fail with a configuration error otherwise"). *)
Fixpoint check_required_if (rules : list (string * string * list string))
    (ps : gmap string string) : option config_error :=
  match rules with
  | [] => None
  | (key, val, reqs) :: rules' =>
      if bool_decide (ps !! key = Some val) then
        match filter (λ r, is_empty (ps !! r) = true) reqs with
        | [] => check_required_if rules' ps
        | missing => Some (missing_required key val missing)
        end
      else check_required_if rules' ps
  end.

(** The module object: [module.params[k]] is [params !! k], with [None]
    for an option that has no value. *)
Record module := { params : gmap string string }.

(** Modelled from the spec: the constructor of [AnsibleModule]
    ([module_utils/basic.py], outside this module): resolve aliases and
    defaults, then validate; a failed validation is [fail_json], which
    ends the run with a configuration error. *)
Definition AnsibleModule (spec : list (string * option_spec))
    (rules : list (string * string * list string))
    (raw : gmap string string) : config_error + module :=
  let ps := resolve spec raw in
  match check_choices spec ps with
  | Some e => inl e
  | None =>
      match check_required_if rules ps with
      | Some e => inl e
      | None => inr {| params := ps |}
      end
  end.

(** ** Managed objects, the fabric and the result envelope *)

(** A Python dict written in the source, in the order it is written. *)
Abbreviation pydict A := (list (string * A)).

(** The configuration of a managed object: its attributes and, per child
    class, the attributes of its child object. *)
Record config := {
  attributes : gmap string string;
  children : gmap string (gmap string string);
}.

Record mo := { mo_class : string; mo_config : config }.

(** The policy tree of the fabric: managed objects by distinguished name. *)
Abbreviation fabric := (gmap string mo).

(** The result the module hands back (the RETURN block, source lines
    123-226): the configuration before and after, what was assembled from
    the parameters, what was pushed, and the error object. *)
Record envelope := {
  previous : list (string * mo);
  current : list (string * mo);
  proposed : config;
  sent : config;
  changed : bool;
  error : option string;
}.

(** ** The client interface *)

(** The [root_class] descriptor handed to [construct_url]. *)
Record root_class := {
  aci_class : string;
  aci_rn : string;
  module_object : pyval;
  target_filter : pydict pyval;
}.

(** What [main] asks of the client, as it is written at the call site. *)
Inductive call :=
| construct_url_call (root : root_class)
| get_existing_call
| payload_call (aci_class : string) (class_config : pydict pyval)
    (childConfigs : list (pydict (pydict (pydict pyval))))
| get_diff_call (aci_class : string)
| post_config_call
| delete_config_call
| exit_json_call.

(** Modelled from the spec: the signature of [ACIModule.payload]
    ([module_utils/network/aci/aci.py], outside this module).  Section 6
    gives the method three parameters, class, attributes and children;
    it declares them under the names [aci_class], [class_config] and
    [child_configs]. *)
Definition payload_parameters : list string :=
  ["aci_class"; "class_config"; "child_configs"].

(** Binding the keywords of a call to the parameters of the method: the
    first keyword the method does not declare raises [TypeError], before
    the method runs. *)
Definition bind_keywords (method : string) (parameters keywords : list string)
  : option exn :=
  match filter (λ k, k ∉ parameters) keywords with
  | [] => None
  | k :: _ => Some (TypeError method k)
  end.

(** [ACIModule] is defined in [module_utils/network/aci/aci.py], outside
    this module: [main] takes it as a parameter.  A client is a state [aci]
    built from the module and the fabric it talks to, and the methods
    [main] calls on it; whatever goes wrong inside a method is recorded
    in the client (the structured error object) and reported by
    [exit_json].  What [main] can get wrong on its side of a call is a
    keyword that the method does not declare. *)
Class ACIClient (aci : Type) := {
  ACIModule : module → fabric → aci;
  construct_url : root_class → aci → aci;
  get_existing : aci → aci;
  payload : string → pydict pyval →
            list (pydict (pydict (pydict pyval))) → aci → aci;
  get_diff : string → aci → aci;
  post_config : aci → aci;
  delete_config : aci → aci;
  exit_json : aci → envelope;
  apic_of : aci → fabric;
}.

(** ** Runs of the module *)

(** How a run ends: [fail_json] of [AnsibleModule] (a configuration
    error), an exception nobody catches, or [exit_json] of the client. *)
Inductive outcome :=
| fail_json (e : config_error)
| uncaught (e : exn)
| exited (r : envelope).

(** A run: how it ended, the client calls it made, in order, and the
    fabric it left behind. *)
Record run := {
  result : outcome;
  calls : list call;
  apic_after : fabric;
}.

(** The part of [main] that talks to the client is a state monad over the
    client and the log of the calls made, with exceptions: a call that
    raises ends the script, and the calls after it are not made. *)
Definition script (aci A : Type) : Type :=
  aci * list call → (exn + A) * (aci * list call).

#[global] Instance script_ret {aci} : MRet (script aci) :=
  λ A (x : A) w, (inr x, w).

#[global] Instance script_bind {aci} : MBind (script aci) :=
  λ A B (k : A → script aci B) (m : script aci A) w,
    match m w with
    | (inr x, w') => k x w'
    | (inl e, w') => (inl e, w')
    end.

Definition raise {aci A} (e : exn) : script aci A := λ w, (inl e, w).

(** A call that the client answers: the method runs and the call is
    logged. *)
Definition invoke {aci} (c : call) (method : aci → aci) : script aci () :=
  λ '(a, log), (inr (), (method a, log ++ [c])).

(** A call written with keywords: the keywords are bound first.  Of the
    calls of [main] only [payload] is given a keyword that is not in the
    signature of its method; the others are embedded with [invoke]. *)
Definition call_with_keywords {aci A} (method : string)
    (parameters keywords : list string) (s : script aci A) : script aci A :=
  match bind_keywords method parameters keywords with
  | Some e => raise e
  | None => s
  end.

Section main.
Context {aci : Type} {client : ACIClient aci}.

Definition aci_construct_url (root : root_class) : script aci () :=
  invoke (construct_url_call root) (construct_url root).

Definition aci_get_existing : script aci () :=
  invoke get_existing_call get_existing.

(** [aci.payload(aci_class=..., class_config=..., childConfigs=...)]
    (source lines 294-309), with the keywords as they are written. *)
Definition aci_payload (cls : string) (class_config : pydict pyval)
    (childConfigs : list (pydict (pydict (pydict pyval)))) : script aci () :=
  call_with_keywords "payload" payload_parameters
    ["aci_class"; "class_config"; "childConfigs"]
    (invoke (payload_call cls class_config childConfigs)
            (payload cls class_config childConfigs)).

Definition aci_get_diff (cls : string) : script aci () :=
  invoke (get_diff_call cls) (get_diff cls).

Definition aci_post_config : script aci () :=
  invoke post_config_call post_config.

Definition aci_delete_config : script aci () :=
  invoke delete_config_call delete_config.

Definition aci_exit_json : script aci envelope :=
  λ '(a, log), (inr (exit_json a), (a, log ++ [exit_json_call])).

(** A run that ends before the client exists. *)
Definition abort (o : outcome) (apic : fabric) : run :=
  {| result := o; calls := []; apic_after := apic |}.

(** A run of a script on a fresh client: it ends in the envelope of
    [exit_json], or in the exception a call raised. *)
Definition finish (s : script aci envelope) (a : aci) : run :=
  match s (a, []) with
  | (inr r, (a', log)) =>
      {| result := exited r; calls := log; apic_after := apic_of a' |}
  | (inl e, (a', log)) =>
      {| result := uncaught e; calls := log; apic_after := apic_of a' |}
  end.

(** [main] (source lines 242-318), on the arguments supplied to the
    module and the fabric the client talks to.  Check mode
    ([supports_check_mode]) is the client's business and is not
    modelled. *)
Definition main (raw : gmap string string) (apic : fabric) : run :=
  match AnsibleModule argument_spec required_if raw with
  | inl e => abort (fail_json e) apic
  | inr module =>
    let name := params module !! "name" in
    let container := params module !! "container" in
    let credential := params module !! "credential" in
    let description := params module !! "description" in
    let domain := params module !! "domain" in
    let host_or_ip := params module !! "host_or_ip" in
    let state := params module !! "state" in
    let vm_provider := params module !! "vm_provider" in

    let controller_class := "vmmCtrlrP" in
    match getitem VM_PROVIDER_MAPPING vm_provider with
    | inl e => abort (uncaught e) apic
    | inr token =>
    match format "uni/vmmp-{0}/dom-{1}/ctrlr-{2}"
                 [token; py_str domain; py_str name] with
    | inl e => abort (uncaught e) apic
    | inr ctrlr_mo =>
    match getitem VM_PROVIDER_MAPPING vm_provider with
    | inl e => abort (uncaught e) apic
    | inr token' =>
    match format "vmmp-{0}/dom-{1}/ctrlr-{2}"
                 [token'; py_str domain; py_str name] with
    | inl e => abort (uncaught e) apic
    | inr ctrlr_rn =>

    (* Ensure that querying all objects works when only domain is provided *)
    let ctrlr_mo := match name with None => None | Some _ => Some ctrlr_mo end in

    finish (
      aci_construct_url
        {| aci_class := controller_class;
           aci_rn := ctrlr_rn;
           module_object := ctrlr_mo;
           target_filter := [("name", domain); ("ctrlr", name)] |} ;;

      aci_get_existing ;;

      (if decide (state = Some "present") then
         aci_payload controller_class
           [ ("descr", description);
             ("hostOrIp", host_or_ip);
             ("name", name);
             ("rootContName", container) ]
           [ [ ("vmmRsAcc", [ ("attributes", [ ("tDn", credential) ]) ]) ] ] ;;

         aci_get_diff controller_class ;;

         aci_post_config

       else if decide (state = Some "absent") then
         aci_delete_config

       else mret ()) ;;

      aci_exit_json
    ) (ACIModule module apic)
    end end end end
  end.

End main.

(** ** A client after the specification *)

#[global] Instance config_eq_dec : EqDecision config.
Proof. solve_decision. Defined.

Definition empty_config : config := {| attributes := ∅; children := ∅ |}.

(** The entries of [want] that [have] does not already hold. *)
Definition delta (want have : gmap string string) : gmap string string :=
  filter (λ kv, have !! kv.1 ≠ Some kv.2) want.

(** Per child class, the attributes of the wanted child that the existing
    child does not hold; a child with nothing to change is left out. *)
Definition delta_children (want have : gmap string (gmap string string))
  : gmap string (gmap string string) :=
  map_imap (λ c w,
              let d := delta w (default ∅ (have !! c)) in
              if decide (d = ∅) then None else Some d) want.

(** Modelled from the spec: the diff (glossary: "the minimal delta
    between desired and current state"). *)
Definition config_delta (want have : config) : config :=
  {| attributes := delta (attributes want) (attributes have);
     children := delta_children (children want) (children have) |}.

(** Modelled from the spec: what a write of the delta [d] leaves in an
    object that held [have]. *)
Definition config_merge (d have : config) : config :=
  {| attributes := attributes d ∪ attributes have;
     children := union_with (λ dc hc, Some (dc ∪ hc))
                            (children d) (children have) |}.

(** The entries of a dict written in the source that have a value. *)
Definition supplied (d : pydict pyval) : gmap string string :=
  foldr (λ e m, match e.2 with Some v => <[e.1 := v]> m | None => m end) ∅ d.

(** The children written in the source that have a value: a child whose
    attributes are all [None] is left out. *)
Definition supplied_children (cs : list (pydict (pydict (pydict pyval))))
  : gmap string (gmap string string) :=
  foldr (λ child m,
           foldr (λ e m',
                    let attrs := supplied (default [] (dict_get e.2 "attributes")) in
                    if decide (attrs = ∅) then m' else <[e.1 := attrs]> m')
                 m child) ∅ cs.

(** The configuration a diff is taken against: that of the first object
    read, or nothing when the read came back empty. *)
Definition first_config (objects : list (string * mo)) : config :=
  match objects with
  | [] => empty_config
  | (_, o) :: _ => mo_config o
  end.

(** The configuration a [payload] call proposes. *)
Definition config_of_payload (c : call) : config :=
  match c with
  | payload_call _ class_config childConfigs =>
      {| attributes := supplied class_config;
         children := supplied_children childConfigs |}
  | _ => empty_config
  end.

(** The state of the client between calls. *)
Record aci_state := {
  apic : fabric;
  url : option root_class;
  existing : list (string * mo);
  config_proposed : config;
  config_diff : config;
  has_changed : bool;
  last_error : option string;
}.

(** What the fabric does with a request whose descriptor has no
    identifier, that is with a request addressed to the domain-level
    collection: which objects it lists, and what a write or a delete
    leaves behind.  The specification leaves this to the fabric. *)
Record collection := {
  list_collection : root_class → fabric → list (string * mo);
  write_collection : root_class → config → fabric → fabric;
  delete_collection : root_class → fabric → fabric;
}.

Section spec_client.
Variable collections : collection.

(** Modelled from the spec: the read of current state (step 4).  With
    an identifier it fetches that exact object, without one it lists
    the collection (section 3, invariant). *)
Definition read (u : option root_class) (f : fabric) : list (string * mo) :=
  match u with
  | None => []
  | Some root =>
      match module_object root with
      | Some dn => match f !! dn with Some o => [(dn, o)] | None => [] end
      | None => list_collection collections root f
      end
  end.

Definition existing_config (a : aci_state) : config :=
  first_config (existing a).

Definition spec_ACIModule (m : module) (f : fabric) : aci_state :=
  {| apic := f; url := None; existing := [];
     config_proposed := empty_config; config_diff := empty_config;
     has_changed := false; last_error := None |}.

Definition spec_construct_url (root : root_class) (a : aci_state) : aci_state :=
  {| apic := apic a; url := Some root; existing := existing a;
     config_proposed := config_proposed a; config_diff := config_diff a;
     has_changed := has_changed a; last_error := last_error a |}.

Definition spec_get_existing (a : aci_state) : aci_state :=
  {| apic := apic a; url := url a; existing := read (url a) (apic a);
     config_proposed := config_proposed a; config_diff := config_diff a;
     has_changed := has_changed a; last_error := last_error a |}.

(** Modelled from the spec: the desired payload (section 3): the
    attributes and child references that have a value. *)
Definition spec_payload (cls : string) (class_config : pydict pyval)
    (childConfigs : list (pydict (pydict (pydict pyval))))
    (a : aci_state) : aci_state :=
  {| apic := apic a; url := url a; existing := existing a;
     config_proposed :=
       config_of_payload (payload_call cls class_config childConfigs);
     config_diff := config_diff a;
     has_changed := has_changed a; last_error := last_error a |}.

(** Modelled from the spec: step 5, "compute the difference against
    current state". *)
Definition spec_get_diff (cls : string) (a : aci_state) : aci_state :=
  {| apic := apic a; url := url a; existing := existing a;
     config_proposed := config_proposed a;
     config_diff := config_delta (config_proposed a) (existing_config a);
     has_changed := has_changed a; last_error := last_error a |}.

(** Modelled from the spec: step 5, "if a difference exists, issue a
    write".  With an identifier the delta is merged into that object;
    without one the write is addressed to the collection. *)
Definition spec_post_config (a : aci_state) : aci_state :=
  if decide (config_diff a = empty_config) then a
  else
    match url a with
    | Some root =>
        {| apic :=
             match module_object root with
             | Some dn =>
                 <[dn := {| mo_class := aci_class root;
                            mo_config := config_merge (config_diff a)
                                           (existing_config a) |}]> (apic a)
             | None => write_collection collections root (config_diff a) (apic a)
             end;
           url := url a; existing := existing a;
           config_proposed := config_proposed a;
           config_diff := config_diff a;
           has_changed := true; last_error := last_error a |}
    | None => a
    end.

(** Modelled from the spec: step 6, "issue a delete of the current
    identifier; deleting a non-existent resource must not be treated as
    an error".  Without an identifier the delete is addressed to the
    collection. *)
Definition spec_delete_config (a : aci_state) : aci_state :=
  match existing a, url a with
  | _ :: _, Some root =>
      {| apic :=
           match module_object root with
           | Some dn => delete dn (apic a)
           | None => delete_collection collections root (apic a)
           end;
         url := url a; existing := existing a;
         config_proposed := config_proposed a;
         config_diff := config_diff a;
         has_changed := true; last_error := last_error a |}
  | _, _ => a
  end.

(** Modelled from the spec: the result envelope (section 3), with
    [previous] the configuration read before the module acted and
    [current] the configuration once it has finished. *)
Definition spec_exit_json (a : aci_state) : envelope :=
  {| previous := existing a;
     current := read (url a) (apic a);
     proposed := config_proposed a;
     sent := config_diff a;
     changed := has_changed a;
     error := last_error a |}.

Definition spec_client : ACIClient aci_state :=
  {| ACIModule := spec_ACIModule;
     construct_url := spec_construct_url;
     get_existing := spec_get_existing;
     payload := spec_payload;
     get_diff := spec_get_diff;
     post_config := spec_post_config;
     delete_config := spec_delete_config;
     exit_json := spec_exit_json;
     apic_of := apic |}.

End spec_client.

(** The fabric of the examples: a collection lists every object the
    fabric holds, and a write or a delete addressed to a collection goes
    to the object under the relative name of the descriptor. *)
Definition list_all : collection :=
  {| list_collection := λ _ f, map_to_list f;
     write_collection := λ root d f,
       <["uni/" +:+ aci_rn root := {| mo_class := aci_class root; mo_config := d |}]> f;
     delete_collection := λ root f, delete ("uni/" +:+ aci_rn root) f |}.

(** ** Observations on runs *)

(** What the two templates of [main] expand to (source lines 274-275). *)
Definition dn_of (token : string) (domain name : pyval) : string :=
  "uni/vmmp-" +:+ token +:+ "/dom-" +:+ py_str domain +:+ "/ctrlr-" +:+ py_str name.

Definition rn_of (token : string) (domain name : pyval) : string :=
  "vmmp-" +:+ token +:+ "/dom-" +:+ py_str domain +:+ "/ctrlr-" +:+ py_str name.

(** The descriptor [main] hands to [construct_url] for a module whose
    provider maps to [token]. *)
Definition root_of (m : module) (token : string) : root_class :=
  let name := params m !! "name" in
  let domain := params m !! "domain" in
  {| aci_class := "vmmCtrlrP";
     aci_rn := rn_of token domain name;
     module_object :=
       match name with None => None | Some _ => Some (dn_of token domain name) end;
     target_filter := [("name", domain); ("ctrlr", name)] |}.

(** The [payload] call as [main] writes it (source lines 294-309): the
    arguments it assembles. *)
Definition payload_of (m : module) : call :=
  payload_call "vmmCtrlrP"
    [ ("descr", params m !! "description");
      ("hostOrIp", params m !! "host_or_ip");
      ("name", params m !! "name");
      ("rootContName", params m !! "container") ]
    [ [ ("vmmRsAcc", [ ("attributes", [ ("tDn", params m !! "credential") ]) ]) ] ].

(** The calls the three-way branch on [state] gets through to the client
    (source lines 293-316): the [payload] call of the first branch raises
    on its keywords, so that branch makes none. *)
Definition action_calls (m : module) : list call :=
  if decide (params m !! "state" = Some "present") then []
  else if decide (params m !! "state" = Some "absent") then
    [delete_config_call]
  else [].

(** What the [payload] call of [main] raises. *)
Definition payload_error : exn := TypeError "payload" "childConfigs".

Definition is_read (c : call) : bool :=
  match c with get_existing_call => true | _ => false end.

(** The calls that change the fabric. *)
Definition is_write (c : call) : bool :=
  match c with post_config_call | delete_config_call => true | _ => false end.

(** The calls that belong to a change: assembling it, diffing it,
    writing it, deleting. *)
Definition is_mutating (c : call) : bool :=
  match c with
  | payload_call _ _ _ | get_diff_call _ | post_config_call
  | delete_config_call => true
  | _ => false
  end.

(** The identifiers handed to the client, one per [construct_url]. *)
Definition identifiers (cs : list call) : list pyval :=
  omap (λ c, match c with
             | construct_url_call root => Some (module_object root)
             | _ => None
             end) cs.

(** [c] occurs in [t]. *)
Fixpoint mem_char (c : ascii) (t : string) : bool :=
  match t with
  | EmptyString => false
  | String a t' => Ascii.eqb a c || mem_char c t'
  end.


Section observations.
Context {aci : Type} {client : ACIClient aci}.

(** The client after the read (source line 291). *)
Definition client_read (m : module) (token : string) (f : fabric) : aci :=
  get_existing (construct_url (root_of m token) (ACIModule m f)).

(** The client once [main] has made its calls, short of [exit_json]. *)
Definition client_after (m : module) (token : string) (f : fabric) : aci :=
  if decide (params m !! "state" = Some "present") then client_read m token f
  else if decide (params m !! "state" = Some "absent") then
    delete_config (client_read m token f)
  else client_read m token f.

End observations.

(** ** Inputs used in the examples *)

(** The example of section 8 of the specification. *)
Definition example_present : gmap string string :=
  <["domain" := "vmware_dom"]> (<["name" := "ctrl1"]>
  (<["vm_provider" := "vmware"]> (<["state" := "present"]>
  (<["host_or_ip" := "10.0.0.5"]> ∅)))).

(** "Query all VMware VMM credentials" of the EXAMPLES block. *)
Definition example_query_all : gmap string string :=
  <["domain" := "vmware_dom"]> (<["vm_provider" := "vmware"]>
  (<["state" := "query"]> ∅)).

(** Only the domain is provided. *)
Definition query_domain_only : gmap string string :=
  <["domain" := "vmware_dom"]> (<["state" := "query"]> ∅).

Definition present_without_provider : gmap string string :=
  <["domain" := "vmware_dom"]> (<["name" := "ctrl1"]>
  (<["state" := "present"]> ∅)).

Definition absent_without_provider : gmap string string :=
  <["domain" := "vmware_dom"]> (<["state" := "absent"]> ∅).

Definition absent_without_name : gmap string string :=
  <["domain" := "vmware_dom"]> (<["vm_provider" := "vmware"]>
  (<["state" := "absent"]> ∅)).

Definition present_without_domain : gmap string string :=
  <["name" := "ctrl1"]> (<["vm_provider" := "vmware"]> ∅).

(** A Microsoft domain that somebody called "VMware". *)
Definition domain_named_after_token : gmap string string :=
  <["domain" := "VMware"]> (<["name" := "ctrl1"]>
  (<["vm_provider" := "microsoft"]> (<["state" := "query"]> ∅))).

(** The credential given under the alias the documentation promises,
    and no controller name. *)
Definition credential_by_alias : gmap string string :=
  <["domain" := "vmware_dom"]> (<["credential_name" := "vcenter_cred"]>
  (<["vm_provider" := "vmware"]> (<["state" := "present"]> ∅))).

(** * Properties *)

(** ** Strings *)

Lemma append_empty_r (s : string) : s +:+ "" = s.
Proof.
  induction s as [|c s IH]; [done|].
  change (String c (s +:+ "") = String c s). by rewrite IH.
Qed.

Lemma format_dn (a b c : string) :
  format "uni/vmmp-{0}/dom-{1}/ctrlr-{2}" [a; b; c]
  = inr ("uni/vmmp-" +:+ a +:+ "/dom-" +:+ b +:+ "/ctrlr-" +:+ c).
Proof.
  transitivity
    (inr (A := exn) ("uni/vmmp-" +:+ a +:+ "/dom-" +:+ b +:+ "/ctrlr-" +:+ c +:+ "")).
  - vm_compute. reflexivity.
  - by rewrite append_empty_r.
Qed.

Lemma format_rn (a b c : string) :
  format "vmmp-{0}/dom-{1}/ctrlr-{2}" [a; b; c]
  = inr ("vmmp-" +:+ a +:+ "/dom-" +:+ b +:+ "/ctrlr-" +:+ c).
Proof.
  transitivity
    (inr (A := exn) ("vmmp-" +:+ a +:+ "/dom-" +:+ b +:+ "/ctrlr-" +:+ c +:+ "")).
  - vm_compute. reflexivity.
  - by rewrite append_empty_r.
Qed.

Lemma starts_with_app_sep (t x y : string) (c : ascii) :
  mem_char c t = false →
  starts_with t (x +:+ String c y) = true → starts_with t x = true.
Proof.
  revert x. induction t as [|a t IH]; intros x Hc Hp; [done|].
  simpl in Hc. apply orb_false_iff in Hc as [Hac Hc].
  destruct x as [|b x].
  - change (starts_with (String a t) (String c y) = true) in Hp.
    simpl in Hp. apply andb_true_iff in Hp as [Hp _]. congruence.
  - change (starts_with (String a t) (String b (x +:+ String c y)) = true) in Hp.
    simpl in *. apply andb_true_iff in Hp as [-> Hp]. by apply IH.
Qed.

Lemma contains_empty_l (s : string) : contains "" s = true.
Proof. by destruct s. Qed.

(** An occurrence of [t] cannot straddle a character that [t] lacks. *)
Lemma contains_app_sep (t x y : string) (c : ascii) :
  mem_char c t = false →
  contains t x = false → contains t y = false →
  contains t (x +:+ String c y) = false.
Proof.
  intros Hc. induction x as [|b x IH]; intros Hx Hy.
  - change (contains t (String c y) = false).
    simpl. rewrite Hy, orb_false_r.
    destruct t as [|a t]; [by rewrite contains_empty_l in Hy|].
    simpl in *. apply orb_false_iff in Hc as [-> _]. done.
  - simpl in Hx. apply orb_false_iff in Hx as [Hp Hx].
    change (contains t (String b (x +:+ String c y)) = false).
    simpl. rewrite (IH Hx Hy), orb_false_r.
    destruct (starts_with t (String b (x +:+ String c y))) eqn:E; [|done].
    apply (starts_with_app_sep t (String b x) y c Hc) in E. congruence.
Qed.

Lemma starts_with_app (t y : string) : starts_with t (t +:+ y) = true.
Proof.
  induction t as [|a t IH]; [done|].
  change (starts_with (String a t) (String a (t +:+ y)) = true).
  simpl. by rewrite Ascii.eqb_refl.
Qed.

Lemma contains_app (t x y : string) : contains t (x +:+ t +:+ y) = true.
Proof.
  induction x as [|b x IH].
  - change (contains t (t +:+ y) = true).
    destruct (t +:+ y) eqn:E; simpl; rewrite <- E, starts_with_app; done.
  - change (contains t (String b (x +:+ t +:+ y)) = true).
    simpl. rewrite IH. apply orb_true_r.
Qed.

Lemma append_assoc_r (x y z : string) : (x +:+ y) +:+ z = x +:+ (y +:+ z).
Proof.
  induction x as [|c x IH]; [done|].
  change (String c ((x +:+ y) +:+ z) = String c (x +:+ (y +:+ z))).
  by rewrite IH.
Qed.

(** ** Argument handling *)

Lemma resolve_lookup_None spec raw k :
  k ∉ spec.*1 → resolve spec raw !! k = None.
Proof.
  induction spec as [|[k' o] spec IH]; intros Hk; [done|].
  apply not_elem_of_cons in Hk as [Hne Hk]. simpl in *.
  destruct (resolve_option raw k' o); [rewrite lookup_insert_ne by done|]; auto.
Qed.

Lemma resolve_lookup spec raw k :
  NoDup spec.*1 →
  resolve spec raw !! k = dict_get spec k ≫= resolve_option raw k.
Proof.
  induction spec as [|[k' o] spec IH]; intros Hnd; [done|].
  apply NoDup_cons in Hnd as [Hk' Hnd]. simpl in *.
  destruct (decide (k' = k)) as [->|Hne]; simpl.
  - destruct (resolve_option raw k o) eqn:E.
    + by rewrite lookup_insert_eq.
    + by apply resolve_lookup_None.
  - destruct (resolve_option raw k' o); [rewrite lookup_insert_ne by done|]; auto.
Qed.

Lemma argument_spec_NoDup : NoDup argument_spec.*1.
Proof. apply (bool_decide_unpack _). by vm_compute. Qed.

Lemma check_choices_None spec ps k o cs v :
  check_choices spec ps = None →
  (k, o) ∈ spec → choices o = Some cs → ps !! k = Some v → v ∈ cs.
Proof.
  induction spec as [|[k' o'] spec IH]; intros Hck Hin Hcs Hv.
  - by apply elem_of_nil in Hin.
  - apply elem_of_cons in Hin as [[= <- <-]|Hin]; simpl in Hck.
    + rewrite Hcs, Hv in Hck. case_bool_decide; [done|discriminate].
    + apply IH; [|done..].
      destruct (choices o'), (ps !! k'); try done.
      by case_bool_decide.
Qed.

Lemma check_required_if_None rules ps key val reqs r :
  check_required_if rules ps = None →
  (key, val, reqs) ∈ rules → ps !! key = Some val → r ∈ reqs →
  is_empty (ps !! r) = false.
Proof.
  induction rules as [|[[key' val'] reqs'] rules IH]; intros Hck Hin Hkey Hr.
  - by apply elem_of_nil in Hin.
  - apply elem_of_cons in Hin as [[= <- <- <-]|Hin]; simpl in Hck.
    + rewrite bool_decide_eq_true_2 in Hck by done.
      destruct (filter _ reqs) eqn:E; [|done].
      destruct (is_empty (ps !! r)) eqn:Er; [|done].
      assert (r ∈ filter (λ r, is_empty (ps !! r) = true) reqs) as Hf
        by (by apply list_elem_of_filter).
      rewrite E in Hf. by apply elem_of_nil in Hf.
    + apply IH; [|done..].
      case_bool_decide; [|done]. by destruct (filter _ reqs').
Qed.

Lemma check_required_if_Some rules ps key val reqs r :
  (key, val, reqs) ∈ rules → ps !! key = Some val → r ∈ reqs →
  is_empty (ps !! r) = true →
  ∃ e, check_required_if rules ps = Some e.
Proof.
  induction rules as [|[[key' val'] reqs'] rules IH]; intros Hin Hkey Hr He.
  - by apply elem_of_nil in Hin.
  - simpl. apply elem_of_cons in Hin as [[= <- <- <-]|Hin].
    + rewrite bool_decide_eq_true_2 by done.
      destruct (filter _ reqs) eqn:E; [|eauto].
      assert (r ∈ filter (λ r, is_empty (ps !! r) = true) reqs) as Hf
        by (by apply list_elem_of_filter).
      rewrite E in Hf. by apply elem_of_nil in Hf.
    + destruct (IH Hin Hkey Hr He) as [e Hck].
      case_bool_decide; [|eauto]. destruct (filter _ reqs'); eauto.
Qed.

(** What acceptance by [AnsibleModule] means. *)
Lemma AnsibleModule_inr spec rules raw m :
  AnsibleModule spec rules raw = inr m →
  params m = resolve spec raw ∧
  check_choices spec (params m) = None ∧
  check_required_if rules (params m) = None.
Proof.
  unfold AnsibleModule. intros H.
  destruct (check_choices _ _) eqn:E1; [done|].
  destruct (check_required_if _ _) eqn:E2; [done|].
  by injection H as <-.
Qed.

Lemma accepted_state raw m :
  AnsibleModule argument_spec required_if raw = inr m →
  params m !! "state" = Some "absent" ∨
  params m !! "state" = Some "present" ∨
  params m !! "state" = Some "query".
Proof.
  intros (Hps & Hch & _)%AnsibleModule_inr.
  assert (∃ s, params m !! "state" = Some s) as [s Hs].
  { rewrite Hps, resolve_lookup by apply argument_spec_NoDup.
    simpl. unfold resolve_option. destruct (first_supplied _ _); eauto. }
  eapply (check_choices_None _ _ "state"
            {| type := "str"; aliases := []; default_value := Some "present";
               choices := Some ["absent"; "present"; "query"] |}) in Hch;
    [| |reflexivity|exact Hs].
  - rewrite Hs.
    repeat (apply elem_of_cons in Hch as [->|Hch]; [auto|]).
    by apply elem_of_nil in Hch.
  - apply (bool_decide_unpack _). by vm_compute.
Qed.

Lemma accepted_vm_provider raw m p :
  AnsibleModule argument_spec required_if raw = inr m →
  params m !! "vm_provider" = Some p →
  ∃ token, dict_get VM_PROVIDER_MAPPING p = Some token.
Proof.
  intros (_ & Hch & _)%AnsibleModule_inr Hp.
  eapply (check_choices_None _ _ "vm_provider"
            {| type := "str"; aliases := []; default_value := None;
               choices := Some (keys VM_PROVIDER_MAPPING) |}) in Hch;
    [| |reflexivity|exact Hp].
  - unfold keys in Hch. simpl in Hch.
    repeat (apply elem_of_cons in Hch as [->|Hch]; [vm_compute; eauto|]).
    by apply elem_of_nil in Hch.
  - apply (bool_decide_unpack _). by vm_compute.
Qed.

Lemma accepted_domain raw m s :
  AnsibleModule argument_spec required_if raw = inr m →
  params m !! "state" = Some s → s = "present" ∨ s = "absent" →
  is_empty (params m !! "domain") = false.
Proof.
  intros (_ & _ & Hreq)%AnsibleModule_inr Hs Hcase.
  eapply (check_required_if_None _ _ "state" s ["domain"]); [done| |done|constructor].
  destruct Hcase as [-> | ->]; apply (bool_decide_unpack _); by vm_compute.
Qed.

(** ** The ways [main] ends *)

Section runs.
Context {aci : Type} {client : ACIClient aci}.

Lemma main_rejected raw apic e :
  AnsibleModule argument_spec required_if raw = inl e →
  main raw apic = abort (fail_json e) apic.
Proof. intros H. unfold main. by rewrite H. Qed.

Lemma main_provider_omitted raw apic m :
  AnsibleModule argument_spec required_if raw = inr m →
  params m !! "vm_provider" = None →
  main raw apic = abort (uncaught (KeyError None)) apic.
Proof. intros H Hp. unfold main. by rewrite H, Hp. Qed.

(** With [state] [present] the [payload] call raises on the keyword
    [childConfigs], after the descriptor is handed over and the read is
    made. *)
Lemma main_raised raw apic m p token :
  AnsibleModule argument_spec required_if raw = inr m →
  params m !! "vm_provider" = Some p →
  dict_get VM_PROVIDER_MAPPING p = Some token →
  params m !! "state" = Some "present" →
  main raw apic =
    {| result := uncaught payload_error;
       calls := [construct_url_call (root_of m token); get_existing_call];
       apic_after := apic_of (client_read m token apic) |}.
Proof.
  intros H Hp Htok Hstate. unfold main. rewrite H, Hp.
  unfold getitem. rewrite Htok, format_dn, format_rn.
  fold (dn_of token (params m !! "domain") (params m !! "name")).
  fold (rn_of token (params m !! "domain") (params m !! "name")).
  fold (root_of m token).
  rewrite decide_True by done. reflexivity.
Qed.

Lemma main_exited raw apic m p token :
  AnsibleModule argument_spec required_if raw = inr m →
  params m !! "vm_provider" = Some p →
  dict_get VM_PROVIDER_MAPPING p = Some token →
  params m !! "state" ≠ Some "present" →
  main raw apic =
    {| result := exited (exit_json (client_after m token apic));
       calls := [construct_url_call (root_of m token); get_existing_call]
                ++ action_calls m ++ [exit_json_call];
       apic_after := apic_of (client_after m token apic) |}.
Proof.
  intros H Hp Htok Hstate. unfold main. rewrite H, Hp.
  unfold getitem. rewrite Htok, format_dn, format_rn.
  unfold client_after, action_calls.
  fold (dn_of token (params m !! "domain") (params m !! "name")).
  fold (rn_of token (params m !! "domain") (params m !! "name")).
  fold (root_of m token).
  rewrite !(decide_False (P := params m !! "state" = Some "present")) by done.
  case_decide; reflexivity.
Qed.

(** The ways a run can go, with what decides between them. *)
Lemma main_cases (raw : gmap string string) (apic : fabric) :
  (∃ e, AnsibleModule argument_spec required_if raw = inl e ∧
        main raw apic = abort (fail_json e) apic) ∨
  (∃ m, AnsibleModule argument_spec required_if raw = inr m ∧
        params m !! "vm_provider" = None ∧
        main raw apic = abort (uncaught (KeyError None)) apic) ∨
  (∃ m p token,
     AnsibleModule argument_spec required_if raw = inr m ∧
     params m !! "vm_provider" = Some p ∧
     dict_get VM_PROVIDER_MAPPING p = Some token ∧
     params m !! "state" = Some "present" ∧
     main raw apic =
       {| result := uncaught payload_error;
          calls := [construct_url_call (root_of m token); get_existing_call];
          apic_after := apic_of (client_read m token apic) |}) ∨
  (∃ m p token,
     AnsibleModule argument_spec required_if raw = inr m ∧
     params m !! "vm_provider" = Some p ∧
     dict_get VM_PROVIDER_MAPPING p = Some token ∧
     params m !! "state" ≠ Some "present" ∧
     main raw apic =
       {| result := exited (exit_json (client_after m token apic));
          calls := [construct_url_call (root_of m token); get_existing_call]
                   ++ action_calls m ++ [exit_json_call];
          apic_after := apic_of (client_after m token apic) |}).
Proof.
  destruct (AnsibleModule argument_spec required_if raw) as [e|m] eqn:Hm.
  { left. exists e. split; [done|]. by apply main_rejected. }
  right. destruct (params m !! "vm_provider") as [p|] eqn:Hp.
  - right. destruct (accepted_vm_provider raw m p Hm Hp) as [token Htok].
    destruct (decide (params m !! "state" = Some "present")) as [Hs|Hs].
    + left. exists m, p, token. repeat split; try done.
      by apply (main_raised raw apic m p token).
    + right. exists m, p, token. repeat split; try done.
      by apply (main_exited raw apic m p token).
  - left. exists m. repeat split; try done.
    by apply (main_provider_omitted raw apic m).
Qed.

(** A run that gets to the client hands it the descriptor and reads
    next; nothing that follows names an identifier or reads again. *)
Lemma main_calls raw apic m p token :
  AnsibleModule argument_spec required_if raw = inr m →
  params m !! "vm_provider" = Some p →
  dict_get VM_PROVIDER_MAPPING p = Some token →
  ∃ rest,
    calls (main raw apic)
    = construct_url_call (root_of m token) :: get_existing_call :: rest ∧
    (rest = [] ∨ rest = [exit_json_call] ∨
     rest = [delete_config_call; exit_json_call]).
Proof.
  intros Hm Hp Htok.
  destruct (decide (params m !! "state" = Some "present")) as [Hs|Hs].
  - rewrite (main_raised raw apic m p token Hm Hp Htok Hs). exists []. auto.
  - rewrite (main_exited raw apic m p token Hm Hp Htok Hs). cbn [calls].
    unfold action_calls. rewrite decide_False by done.
    case_decide; eexists; split; try reflexivity; auto.
Qed.

Lemma identifiers_run raw apic m p token :
  AnsibleModule argument_spec required_if raw = inr m →
  params m !! "vm_provider" = Some p →
  dict_get VM_PROVIDER_MAPPING p = Some token →
  identifiers (calls (main raw apic)) = [module_object (root_of m token)].
Proof.
  intros Hm Hp Htok.
  destruct (main_calls raw apic m p token Hm Hp Htok) as (rest & -> & Hrest).
  by destruct Hrest as [->|[->| ->]].
Qed.

(** The only descriptor in the calls of a run is the one of [root_of]. *)
Lemma construct_url_in_calls raw apic root :
  construct_url_call root ∈ calls (main raw apic) →
  ∃ m p token,
    AnsibleModule argument_spec required_if raw = inr m ∧
    params m !! "vm_provider" = Some p ∧
    dict_get VM_PROVIDER_MAPPING p = Some token ∧
    root = root_of m token.
Proof.
  destruct (main_cases raw apic)
    as [(e & _ & ->)|[(m & _ & _ & ->)|
        [(m & p & token & Hm & Hp & Htok & _ & _)|
         (m & p & token & Hm & Hp & Htok & _ & _)]]];
    cbn [calls abort]; intros Hin; try by apply elem_of_nil in Hin.
  all: exists m, p, token; repeat split; try done.
  all: destruct (main_calls raw apic m p token Hm Hp Htok) as (rest & Hc & Hrest).
  all: rewrite Hc in Hin.
  all: apply elem_of_cons in Hin as [[= ->]|Hin]; [done|].
  all: apply elem_of_cons in Hin as [[=]|Hin].
  all: destruct Hrest as [->|[->| ->]];
         repeat (apply elem_of_cons in Hin as [[=]|Hin]);
         by apply elem_of_nil in Hin.
Qed.

End runs.

(** ** When [AnsibleModule] accepts *)

Lemma check_choices_intro spec ps :
  (∀ k o cs v, (k, o) ∈ spec → choices o = Some cs → ps !! k = Some v → v ∈ cs) →
  check_choices spec ps = None.
Proof.
  induction spec as [|[k o] spec IH]; intros H; [done|]. simpl.
  assert (check_choices spec ps = None) as ->.
  { apply IH. intros k' o' cs v Hin. apply H. by right. }
  destruct (choices o) as [cs|] eqn:Ecs; [|done].
  destruct (ps !! k) as [v|] eqn:Ev; [|done].
  rewrite bool_decide_eq_true_2; [done|].
  eapply (H k o); [left|done..].
Qed.

Lemma check_required_if_intro rules ps :
  (∀ key val reqs r, (key, val, reqs) ∈ rules → ps !! key = Some val →
     r ∈ reqs → is_empty (ps !! r) = false) →
  check_required_if rules ps = None.
Proof.
  induction rules as [|[[key val] reqs] rules IH]; intros H; [done|]. simpl.
  assert (check_required_if rules ps = None) as ->.
  { apply IH. intros key' val' reqs' r Hin. apply H. by right. }
  case_bool_decide as Hkey; [|done].
  destruct (filter _ reqs) as [|r missing] eqn:E; [done|].
  assert (r ∈ filter (λ r, is_empty (ps !! r) = true) reqs) as Hr
    by (rewrite E; left).
  apply list_elem_of_filter in Hr as [Hr Hin].
  rewrite (H key val reqs r) in Hr; [done|left|done..].
Qed.

(** The options that have a list of choices are [state] and
    [vm_provider]; the only options required are those of [required_if]. *)
Lemma AnsibleModule_accepts raw :
  let ps := resolve argument_spec raw in
  (∀ s, ps !! "state" = Some s → s ∈ ["absent"; "present"; "query"]) →
  (∀ p, ps !! "vm_provider" = Some p → p ∈ keys VM_PROVIDER_MAPPING) →
  (ps !! "state" = Some "absent" ∨ ps !! "state" = Some "present" →
     is_empty (ps !! "domain") = false) →
  AnsibleModule argument_spec required_if raw = inr {| params := ps |}.
Proof.
  intros ps Hstate Hprov Hdom. unfold AnsibleModule. fold ps.
  rewrite check_choices_intro, check_required_if_intro; [done| |].
  - intros key val reqs r Hin Hkey Hr.
    repeat (apply elem_of_cons in Hin as [[= -> -> ->]|Hin];
            [apply list_elem_of_singleton in Hr as ->; auto|]).
    by apply elem_of_nil in Hin.
  - intros k o cs v Hin Hcs Hv.
    repeat (apply elem_of_cons in Hin as [[= -> ->]|Hin];
            [first [discriminate Hcs | injection Hcs as <-; auto]|]).
    by apply elem_of_nil in Hin.
Qed.

(** ** Provider tokens *)

Lemma mapping_tokens p token :
  dict_get VM_PROVIDER_MAPPING p = Some token →
  (p, token) ∈ VM_PROVIDER_MAPPING ∧ token ∈ values VM_PROVIDER_MAPPING.
Proof.
  unfold VM_PROVIDER_MAPPING. simpl.
  repeat (case_decide; [intros [= <-]; subst p; split;
                        apply (bool_decide_unpack _); by vm_compute|]).
  done.
Qed.

(** No token has a separator of the template in it, and none occurs in
    the fixed words of the template. *)
Lemma token_letters t :
  t ∈ values VM_PROVIDER_MAPPING →
  mem_char "-" t = false ∧ mem_char "/" t = false ∧
  contains t "uni/vmmp" = false ∧ contains t "dom" = false ∧
  contains t "ctrlr" = false.
Proof.
  unfold values. simpl. intros Ht.
  repeat (apply elem_of_cons in Ht as [->|Ht]; [by vm_compute|]).
  by apply elem_of_nil in Ht.
Qed.

(** No token occurs inside another. *)
Lemma tokens_apart t token :
  t ∈ values VM_PROVIDER_MAPPING → token ∈ values VM_PROVIDER_MAPPING →
  t ≠ token → contains t token = false.
Proof.
  unfold values. simpl. intros Ht Htok Hne.
  repeat (apply elem_of_cons in Ht as [->|Ht];
          [repeat (apply elem_of_cons in Htok as [->|Htok];
                   [first [done | by vm_compute]|]);
           by apply elem_of_nil in Htok|]).
  by apply elem_of_nil in Ht.
Qed.

Lemma dn_contains_token token domain name :
  contains token (dn_of token domain name) = true.
Proof. apply (contains_app token "uni/vmmp-"). Qed.

(** A token other than the provider's occurs in the distinguished name
    only if the domain or the name brings it. *)
Lemma dn_other_token t token d n :
  t ∈ values VM_PROVIDER_MAPPING → token ∈ values VM_PROVIDER_MAPPING →
  t ≠ token → contains t d = false → contains t n = false →
  contains t (dn_of token (Some d) (Some n)) = false.
Proof.
  intros Ht Htok Hne Hd Hn.
  destruct (token_letters t Ht) as (Hdash & Hslash & Huni & Hdom & Hctrlr).
  pose proof (tokens_apart t token Ht Htok Hne) as Htt.
  change (contains t ("uni/vmmp" +:+ String "-" (token +:+ String "/" ("dom" +:+
            String "-" (d +:+ String "/" ("ctrlr" +:+ String "-" n))))) = false).
  repeat (apply contains_app_sep; [done|done|]). done.
Qed.

(** ** The properties of the specification *)

(** C1. When [state] is [present] or [absent] and [domain] is empty or
    absent, the run ends in a configuration error before any client call:
    no call is logged and the fabric is untouched.  When [state] is
    [query] the domain is not required: whatever the domain, the run does
    not end in a configuration error (given that a supplied provider is
    one of the seven). *)
Theorem domain_required_fails_fast {aci} {client : ACIClient aci}
    (raw : gmap string string) (apic : fabric) (s : string) :
  resolve argument_spec raw !! "state" = Some s →
  (s = "present" ∨ s = "absent" →
   is_empty (resolve argument_spec raw !! "domain") = true →
   (∃ e, result (main raw apic) = fail_json e) ∧
   calls (main raw apic) = [] ∧
   apic_after (main raw apic) = apic)
  ∧
  (s = "query" →
   (∀ p, resolve argument_spec raw !! "vm_provider" = Some p →
         p ∈ keys VM_PROVIDER_MAPPING) →
   ∀ e, result (main raw apic) ≠ fail_json e).
Proof.
  intros Hs. split.
  - intros Hcase Hdom.
    assert (∃ e, AnsibleModule argument_spec required_if raw = inl e) as [e He].
    { unfold AnsibleModule. destruct (check_choices _ _); [eauto|].
      destruct (check_required_if_Some required_if (resolve argument_spec raw)
                  "state" s ["domain"] "domain") as [e ->]; [|done|left|done|eauto].
      destruct Hcase as [-> | ->]; apply (bool_decide_unpack _); by vm_compute. }
    rewrite (main_rejected raw apic e He). simpl. eauto.
  - intros -> Hprov e.
    assert (AnsibleModule argument_spec required_if raw
            = inr {| params := resolve argument_spec raw |}) as Hacc.
    { apply AnsibleModule_accepts.
      - intros s' Hs'. rewrite Hs in Hs'. injection Hs' as <-.
        apply (bool_decide_unpack _). by vm_compute.
      - exact Hprov.
      - rewrite Hs. intros [?|?]; discriminate. }
    destruct (resolve argument_spec raw !! "vm_provider") as [p|] eqn:Hp.
    + destruct (accepted_vm_provider raw _ p Hacc Hp) as [token Htok].
      rewrite (main_exited raw apic _ p token Hacc Hp Htok); [done|].
      cbn [params]. rewrite Hs. discriminate.
    + by rewrite (main_provider_omitted raw apic _ Hacc Hp).
Qed.

Lemma domain_required_fails_fast_witness :
  ((∃ e, result (main (client := spec_client list_all) present_without_domain ∅)
         = fail_json e) ∧
   calls (main (client := spec_client list_all) present_without_domain ∅) = [] ∧
   apic_after (main (client := spec_client list_all) present_without_domain ∅) = ∅)
  ∧
  (∀ e, result (main (client := spec_client list_all)
                  (<["vm_provider" := "vmware"]> (<["state" := "query"]> ∅)) ∅)
        ≠ fail_json e).
Proof.
  split.
  - apply (domain_required_fails_fast (client := spec_client list_all)
             present_without_domain ∅ "present").
    + vm_compute. reflexivity.
    + left. reflexivity.
    + vm_compute. reflexivity.
  - apply (domain_required_fails_fast (client := spec_client list_all)
             (<["vm_provider" := "vmware"]> (<["state" := "query"]> ∅)) ∅ "query").
    + vm_compute. reflexivity.
    + reflexivity.
    + intros p Hp. vm_compute in Hp. injection Hp as <-.
      apply (bool_decide_unpack _). vm_compute. exact I.
Defined.

(** C2 (amended).  For each of the seven providers and every non-empty
    domain and name, the identifier handed to the client is
    [uni/vmmp-<token>/dom-<domain>/ctrlr-<name>] with the display token of
    the table.  It contains that token, and it contains another provider
    token only if the domain or the name itself contains it. *)
Theorem identifier_template {aci} {client : ACIClient aci}
    (raw : gmap string string) (apic : fabric) (m : module)
    (p token d n : string) :
  AnsibleModule argument_spec required_if raw = inr m →
  params m !! "vm_provider" = Some p →
  dict_get VM_PROVIDER_MAPPING p = Some token →
  params m !! "domain" = Some d → d ≠ "" →
  params m !! "name" = Some n → n ≠ "" →
  let dn := "uni/vmmp-" +:+ token +:+ "/dom-" +:+ d +:+ "/ctrlr-" +:+ n in
  identifiers (calls (main raw apic)) = [Some dn] ∧
  contains token dn = true ∧
  (∀ t, t ∈ values VM_PROVIDER_MAPPING → t ≠ token →
        contains t d = false → contains t n = false →
        contains t dn = false).
Proof.
  intros Hm Hp Htok Hd _ Hn _ dn.
  assert (dn = dn_of token (Some d) (Some n)) as Hdn by reflexivity.
  split; [|split].
  - rewrite (identifiers_run raw apic m p token Hm Hp Htok).
    unfold root_of. cbn [module_object]. by rewrite Hd, Hn.
  - rewrite Hdn. apply dn_contains_token.
  - intros t Ht Hne Htd Htn. rewrite Hdn.
    apply dn_other_token; [done| |done..].
    by apply (mapping_tokens p).
Qed.

Lemma identifier_template_witness :
  identifiers (calls (main (client := spec_client list_all) example_present ∅))
  = [Some "uni/vmmp-VMware/dom-vmware_dom/ctrlr-ctrl1"].
Proof.
  refine (proj1 (identifier_template (client := spec_client list_all)
                   example_present ∅ {| params := resolve argument_spec example_present |}
                   "vmware" "VMware" "vmware_dom" "ctrl1" _ _ _ _ _ _ _)).
  - vm_compute. reflexivity.
  - vm_compute. reflexivity.
  - vm_compute. reflexivity.
  - vm_compute. reflexivity.
  - discriminate.
  - vm_compute. reflexivity.
  - discriminate.
Defined.

(** C2, as stated, fails: with provider [microsoft] and a domain called
    "VMware" the identifier contains the token of another provider. *)
Lemma other_token_in_identifier :
  dict_get VM_PROVIDER_MAPPING "microsoft" = Some "Microsoft" ∧
  "VMware" ∈ values VM_PROVIDER_MAPPING ∧ "VMware" ≠ "Microsoft" ∧
  identifiers (calls (main (client := spec_client list_all)
                        domain_named_after_token ∅))
  = [Some "uni/vmmp-Microsoft/dom-VMware/ctrlr-ctrl1"] ∧
  contains "VMware" "uni/vmmp-Microsoft/dom-VMware/ctrlr-ctrl1" = true.
Proof.
  split; [reflexivity|]. split; [apply (bool_decide_unpack _); by vm_compute|].
  split; [discriminate|]. split; vm_compute; reflexivity.
Qed.

(** C3.  With the provider omitted the run ends in an exception that
    nobody catches: [VM_PROVIDER_MAPPING[None]] raises [KeyError] before
    the client exists, whatever the lifecycle state, and no result
    envelope is produced. *)
Theorem omitted_vm_provider_raises {aci} {client : ACIClient aci} (apic : fabric) :
  main query_domain_only apic = abort (uncaught (KeyError None)) apic ∧
  main present_without_provider apic = abort (uncaught (KeyError None)) apic ∧
  main absent_without_provider apic = abort (uncaught (KeyError None)) apic.
Proof.
  repeat split;
    (eapply main_provider_omitted; [vm_compute; reflexivity|vm_compute; reflexivity]).
Qed.

(** With the name omitted the relative name is still formatted, with
    [str(None)] in the place of the name; only the identifier is unset. *)
Lemma rn_when_name_omitted (m : module) (token : string) :
  params m !! "name" = None →
  module_object (root_of m token) = None ∧
  aci_rn (root_of m token)
  = "vmmp-" +:+ token +:+ "/dom-" +:+ py_str (params m !! "domain") +:+ "/ctrlr-None".
Proof. intros Hname. unfold root_of, rn_of. simpl. by rewrite Hname. Qed.

(** The client after the specification reads the collection when the
    identifier is unset. *)
Lemma read_unset_lists_collection collections (root : root_class) (f : fabric) :
  module_object root = None →
  read collections (Some root) f = list_collection collections root f.
Proof. intros Hmo. unfold read. by rewrite Hmo. Qed.

Lemma delete_keeps_existing collections (a : aci_state) :
  existing (spec_delete_config collections a) = existing a.
Proof.
  destruct a as [f u objects ? ? ? ?]. unfold spec_delete_config.
  cbn [existing url]. by destruct objects, u.
Qed.

Lemma rn_has_controller_segment (token : string) (domain name : pyval) :
  contains "/ctrlr-" (rn_of token domain name) = true.
Proof.
  pose proof (contains_app "/ctrlr-" ("vmmp-" +:+ token +:+ "/dom-" +:+ py_str domain)
                (py_str name)) as H.
  by rewrite !append_assoc_r in H.
Qed.

(** C4 (amended).  When [name] is omitted and the run gets to the client,
    the one descriptor handed to [construct_url] has its identifier
    unset, and the read follows at once; the client after the
    specification answers it with the listing of the collection, which
    is what the envelope reports as [previous].  The relative name of
    the same descriptor is still formatted: it ends in the segment
    [ctrlr-None]. *)
Theorem name_omitted_identifier_unset {aci} {client : ACIClient aci}
    (raw : gmap string string) (f : fabric) (m : module) (p : string) :
  AnsibleModule argument_spec required_if raw = inr m →
  params m !! "name" = None →
  params m !! "vm_provider" = Some p →
  ∃ token rest,
    dict_get VM_PROVIDER_MAPPING p = Some token ∧
    calls (main raw f)
    = construct_url_call (root_of m token) :: get_existing_call :: rest ∧
    (∀ root, construct_url_call root ∈ calls (main raw f) →
             root = root_of m token) ∧
    identifiers (calls (main raw f)) = [None] ∧
    module_object (root_of m token) = None ∧
    aci_rn (root_of m token)
    = "vmmp-" +:+ token +:+ "/dom-" +:+ py_str (params m !! "domain")
      +:+ "/ctrlr-None" ∧
    contains "/ctrlr-" (aci_rn (root_of m token)) = true ∧
    (∀ collections,
       existing (client_read (client := spec_client collections) m token f)
       = list_collection collections (root_of m token) f ∧
       ∀ e, result (main (client := spec_client collections) raw f) = exited e →
            previous e = list_collection collections (root_of m token) f).
Proof.
  intros Hm Hname Hp.
  destruct (accepted_vm_provider raw m p Hm Hp) as [token Htok].
  destruct (rn_when_name_omitted m token Hname) as [Hmo Hrn].
  destruct (main_calls raw f m p token Hm Hp Htok) as (rest & Hcalls & _).
  exists token, rest.
  split; [done|]. split; [done|]. split.
  { intros root' Hin.
    apply construct_url_in_calls in Hin as (m' & p' & token' & Hm' & Hp' & Htok' & ->).
    rewrite Hm in Hm'. injection Hm' as <-.
    rewrite Hp in Hp'. injection Hp' as <-.
    rewrite Htok in Htok'. by injection Htok' as <-. }
  split; [by rewrite (identifiers_run raw f m p token Hm Hp Htok), Hmo|].
  split; [done|]. split; [done|].
  split; [unfold root_of; cbn [aci_rn]; apply rn_has_controller_segment|].
  intros collections.
  assert (existing (client_read (client := spec_client collections) m token f)
          = list_collection collections (root_of m token) f) as Hread.
  { unfold client_read.
    cbn [get_existing construct_url ACIModule spec_client].
    unfold spec_get_existing, spec_construct_url, spec_ACIModule.
    cbn [existing url apic]. by apply read_unset_lists_collection. }
  split; [exact Hread|].
  intros e.
  destruct (decide (params m !! "state" = Some "present")) as [Hs|Hs].
  - by rewrite (main_raised (client := spec_client collections)
                  raw f m p token Hm Hp Htok Hs).
  - rewrite (main_exited (client := spec_client collections)
               raw f m p token Hm Hp Htok Hs).
    cbn [result]. intros [= <-].
    unfold client_after. rewrite decide_False by done.
    rewrite <- Hread.
    case_decide; [|reflexivity].
    cbn [exit_json delete_config spec_client].
    unfold spec_exit_json. cbn [previous]. apply delete_keeps_existing.
Qed.

Lemma name_omitted_identifier_unset_witness :
  ∃ token rest,
    dict_get VM_PROVIDER_MAPPING "vmware" = Some token ∧
    calls (main (client := spec_client list_all) example_query_all ∅)
    = construct_url_call
        (root_of {| params := resolve argument_spec example_query_all |} token)
      :: get_existing_call :: rest ∧
    identifiers (calls (main (client := spec_client list_all) example_query_all ∅))
    = [None].
Proof.
  destruct (name_omitted_identifier_unset (client := spec_client list_all)
              example_query_all ∅
              {| params := resolve argument_spec example_query_all |} "vmware")
    as (token & rest & H1 & H2 & _ & H3 & _);
    [vm_compute; reflexivity..|].
  by exists token, rest.
Defined.

(** C4, as stated, fails: with the name omitted a string that ends in a
    controller segment is still handed to the client, as the relative
    name of the descriptor. *)
Lemma relative_name_keeps_controller_segment :
  ∃ root,
    resolve argument_spec example_query_all !! "name" = None ∧
    calls (main (client := spec_client list_all) example_query_all ∅)
    = [construct_url_call root; get_existing_call; exit_json_call] ∧
    module_object root = None ∧
    aci_rn root = "vmmp-VMware/dom-vmware_dom/ctrlr-None" ∧
    contains "/ctrlr-" (aci_rn root) = true.
Proof.
  eexists. split; [vm_compute; reflexivity|].
  split; [vm_compute; reflexivity|]. by vm_compute.
Qed.

(** C5.  For the example of section 8 the payload that [main] assembles
    is as the specification says, but it never reaches the client: the
    call names the children [childConfigs], a keyword that [payload]
    does not declare, so it raises [TypeError] after the read, and no
    payload, diff or post is made. *)
Theorem payload_never_reaches_client {aci} {client : ACIClient aci} (apic : fabric) :
  AnsibleModule argument_spec required_if example_present
  = inr {| params := resolve argument_spec example_present |} ∧
  payload_of {| params := resolve argument_spec example_present |}
  = payload_call "vmmCtrlrP"
      [ ("descr", None); ("hostOrIp", Some "10.0.0.5");
        ("name", Some "ctrl1"); ("rootContName", None) ]
      [ [ ("vmmRsAcc", [ ("attributes", [ ("tDn", None) ]) ]) ] ] ∧
  bind_keywords "payload" payload_parameters
    ["aci_class"; "class_config"; "childConfigs"]
  = Some (TypeError "payload" "childConfigs") ∧
  result (main example_present apic) = uncaught (TypeError "payload" "childConfigs") ∧
  calls (main example_present apic)
  = [ construct_url_call
        {| aci_class := "vmmCtrlrP";
           aci_rn := "vmmp-VMware/dom-vmware_dom/ctrlr-ctrl1";
           module_object := Some "uni/vmmp-VMware/dom-vmware_dom/ctrlr-ctrl1";
           target_filter := [("name", Some "vmware_dom"); ("ctrlr", Some "ctrl1")] |};
      get_existing_call ] ∧
  filter (λ c, is_mutating c = true) (calls (main example_present apic)) = [].
Proof.
  assert (AnsibleModule argument_spec required_if example_present
          = inr {| params := resolve argument_spec example_present |}) as Hm
    by (vm_compute; reflexivity).
  split; [done|]. split; [vm_compute; reflexivity|].
  split; [vm_compute; reflexivity|].
  rewrite (main_raised example_present apic _ "vmware" "VMware" Hm)
    by (vm_compute; reflexivity).
  cbn [result calls]. split; [reflexivity|].
  split; [|reflexivity]. vm_compute. reflexivity.
Qed.



(** C7.  An input that passes validation and has no provider: the run
    ends in [KeyError] before the read, which is performed zero times. *)
Theorem read_skipped_without_provider {aci} {client : ACIClient aci} (apic : fabric) :
  AnsibleModule argument_spec required_if present_without_provider
  = inr {| params := resolve argument_spec present_without_provider |} ∧
  result (main present_without_provider apic) = uncaught (KeyError None) ∧
  filter (λ c, is_read c = true) (calls (main present_without_provider apic)) = [].
Proof.
  assert (AnsibleModule argument_spec required_if present_without_provider
          = inr {| params := resolve argument_spec present_without_provider |}) as Hm
    by (vm_compute; reflexivity).
  split; [done|].
  by rewrite (main_provider_omitted _ apic _ Hm) by (vm_compute; reflexivity).
Qed.

(** C8.  With [state] [query] no call that belongs to a change is made:
    no payload, no diff, no write, no delete.  A run that reaches
    [exit_json] has made the calls [construct_url], [get_existing],
    [exit_json], and its envelope is the client's report after the read. *)
Theorem query_no_mutation {aci} {client : ACIClient aci}
    (raw : gmap string string) (apic : fabric) (m : module) :
  AnsibleModule argument_spec required_if raw = inr m →
  params m !! "state" = Some "query" →
  filter (λ c, is_mutating c = true) (calls (main raw apic)) = [] ∧
  (∀ r, result (main raw apic) = exited r →
        ∃ token,
          calls (main raw apic)
          = [construct_url_call (root_of m token); get_existing_call; exit_json_call] ∧
          r = exit_json (get_existing (construct_url (root_of m token)
                                         (ACIModule m apic))) ∧
          apic_after (main raw apic)
          = apic_of (get_existing (construct_url (root_of m token)
                                     (ACIModule m apic)))).
Proof.
  intros Hm Hstate.
  destruct (params m !! "vm_provider") as [p|] eqn:Hp.
  - destruct (accepted_vm_provider raw m p Hm Hp) as [token Htok].
    rewrite (main_exited raw apic m p token Hm Hp Htok)
      by (rewrite Hstate; discriminate).
    cbn [calls result apic_after].
    assert (action_calls m = []) as ->
      by (unfold action_calls; rewrite Hstate; by repeat case_decide).
    assert (client_after m token apic
            = get_existing (construct_url (root_of m token) (ACIModule m apic))) as ->
      by (unfold client_after, client_read; rewrite Hstate; by repeat case_decide).
    split; [done|]. intros r [= <-]. by exists token.
  - by rewrite (main_provider_omitted raw apic m Hm Hp).
Qed.

Lemma query_no_mutation_witness :
  filter (λ c, is_mutating c = true)
         (calls (main (client := spec_client list_all) example_query_all ∅)) = [].
Proof.
  refine (proj1 (query_no_mutation (client := spec_client list_all)
                   example_query_all ∅
                   {| params := resolve argument_spec example_query_all |} _ _)).
  - vm_compute. reflexivity.
  - vm_compute. reflexivity.
Defined.

(** Alias resolution renames: a value supplied under a declared alias
    resolves as the same value supplied under the option's own name. *)
Lemma alias_is_renaming (k a v : string) (o : option_spec) :
  (k, o) ∈ argument_spec → a ∈ aliases o →
  resolve argument_spec {[a := v]} = resolve argument_spec {[k := v]}.
Proof.
  intros Hin Ha. unfold argument_spec, update in Hin. simpl in Hin.
  repeat (apply elem_of_cons in Hin as [[= -> ->]|Hin];
          [simpl in Ha;
           repeat (apply elem_of_cons in Ha as [->|Ha];
                   [apply map_eq; intros i; vm_compute; reflexivity|]);
           by apply elem_of_nil in Ha|]).
  by apply elem_of_nil in Hin.
Qed.

(** C9.  The documentation of the module gives [credential] the aliases
    [credential_name] and [credential_profile]; the argument
    specification gives it the single alias "credential_name,
    credential_profile" and declares the two names as aliases of [name].
    A credential supplied under either of them becomes the controller
    name, and the credential stays unset: the identifier names the
    controller after it, and the payload [main] assembles has it as
    [name] and no [tDn]. *)
Theorem credential_alias_binds_name {aci} {client : ACIClient aci}
    (v : string) (apic : fabric) :
  dict_get documented_aliases "credential"
  = Some ["credential_name"; "credential_profile"] ∧
  aliases <$> dict_get argument_spec "credential"
  = Some ["credential_name, credential_profile"] ∧
  aliases <$> dict_get argument_spec "name"
  = Some ["credential_name"; "credential_profile"] ∧
  resolve argument_spec {["credential_name" := v]} !! "credential" = None ∧
  resolve argument_spec {["credential_name" := v]} !! "name" = Some v ∧
  resolve argument_spec {["credential_profile" := v]} !! "credential" = None ∧
  resolve argument_spec {["credential_profile" := v]} !! "name" = Some v ∧
  resolve argument_spec {["credential" := v]} !! "credential" = Some v ∧
  resolve argument_spec {["credential" := v]} !! "name" = None ∧
  payload_of {| params := resolve argument_spec credential_by_alias |}
  = payload_call "vmmCtrlrP"
      [ ("descr", None); ("hostOrIp", None);
        ("name", Some "vcenter_cred"); ("rootContName", None) ]
      [ [ ("vmmRsAcc", [ ("attributes", [ ("tDn", None) ]) ]) ] ] ∧
  calls (main credential_by_alias apic)
  = [ construct_url_call
        {| aci_class := "vmmCtrlrP";
           aci_rn := "vmmp-VMware/dom-vmware_dom/ctrlr-vcenter_cred";
           module_object := Some "uni/vmmp-VMware/dom-vmware_dom/ctrlr-vcenter_cred";
           target_filter := [("name", Some "vmware_dom");
                             ("ctrlr", Some "vcenter_cred")] |};
      get_existing_call ] ∧
  result (main credential_by_alias apic) = uncaught (TypeError "payload" "childConfigs").
Proof. repeat split; vm_compute; reflexivity. Qed.

(** What [main] does on deletion when the name is omitted and the
    provider is given: the delete goes out with the identifier unset. *)
Lemma absent_without_name_deletes {aci} {client : ACIClient aci}
    (raw : gmap string string) (apic : fabric) (m : module) (p token : string) :
  AnsibleModule argument_spec required_if raw = inr m →
  params m !! "state" = Some "absent" →
  params m !! "name" = None →
  params m !! "vm_provider" = Some p →
  dict_get VM_PROVIDER_MAPPING p = Some token →
  module_object (root_of m token) = None ∧
  calls (main raw apic)
  = [construct_url_call (root_of m token); get_existing_call;
     delete_config_call; exit_json_call].
Proof.
  intros Hm Hstate Hname Hp Htok.
  rewrite (main_exited raw apic m p token Hm Hp Htok)
    by (rewrite Hstate; discriminate).
  cbn [calls]. unfold action_calls, root_of. cbn [module_object].
  rewrite Hstate, Hname. by repeat case_decide.
Qed.

Example absent_without_name_run {aci} {client : ACIClient aci} (apic : fabric) :
  calls (main absent_without_name apic)
  = [ construct_url_call
        {| aci_class := "vmmCtrlrP";
           aci_rn := "vmmp-VMware/dom-vmware_dom/ctrlr-None";
           module_object := None;
           target_filter := [("name", Some "vmware_dom"); ("ctrlr", None)] |};
      get_existing_call; delete_config_call; exit_json_call ].
Proof. vm_compute. reflexivity. Qed.

(** C10.  An input with [state] [absent], a domain, no name and no
    provider passes validation, and [delete_config] is not invoked: the
    run ends in [KeyError] before the client exists. *)
Theorem delete_skipped_without_provider {aci} {client : ACIClient aci} (apic : fabric) :
  AnsibleModule argument_spec required_if absent_without_provider
  = inr {| params := resolve argument_spec absent_without_provider |} ∧
  resolve argument_spec absent_without_provider !! "state" = Some "absent" ∧
  is_empty (resolve argument_spec absent_without_provider !! "domain") = false ∧
  resolve argument_spec absent_without_provider !! "name" = None ∧
  result (main absent_without_provider apic) = uncaught (KeyError None) ∧
  delete_config_call ∉ calls (main absent_without_provider apic).
Proof.
  assert (AnsibleModule argument_spec required_if absent_without_provider
          = inr {| params := resolve argument_spec absent_without_provider |}) as Hm
    by (vm_compute; reflexivity).
  split; [done|]. do 3 (split; [vm_compute; reflexivity|]).
  rewrite (main_provider_omitted _ apic _ Hm) by (vm_compute; reflexivity).
  split; [done|]. simpl. apply not_elem_of_nil.
Qed.



(** * Further properties of [main] *)

(** ** The shape of a run *)

Section shape.
Context {aci : Type} {client : ACIClient aci}.

(** X1.  A run of [main] has one of three shapes.  It ends before the
    client exists, in a configuration error or in the [KeyError] of an
    omitted provider, with no call made and the fabric as it was.  Or,
    with [state] [present], it hands over the descriptor, reads, and
    ends in the [TypeError] of the [payload] call.  Or it ends in
    [exit_json] after [construct_url], [get_existing], the delete when
    [state] is [absent], and [exit_json], in this order. *)
Theorem run_shapes (raw : gmap string string) (apic : fabric) :
  (((∃ e, result (main raw apic) = fail_json e) ∨
    result (main raw apic) = uncaught (KeyError None)) ∧
   calls (main raw apic) = [] ∧
   apic_after (main raw apic) = apic)
  ∨
  (∃ m token,
     AnsibleModule argument_spec required_if raw = inr m ∧
     params m !! "state" = Some "present" ∧
     result (main raw apic) = uncaught (TypeError "payload" "childConfigs") ∧
     calls (main raw apic)
     = [construct_url_call (root_of m token); get_existing_call])
  ∨
  (∃ m token r,
     AnsibleModule argument_spec required_if raw = inr m ∧
     params m !! "state" ≠ Some "present" ∧
     result (main raw apic) = exited r ∧
     calls (main raw apic)
     = [construct_url_call (root_of m token); get_existing_call]
       ++ (if decide (params m !! "state" = Some "absent")
           then [delete_config_call] else [])
       ++ [exit_json_call]).
Proof.
  destruct (main_cases raw apic)
    as [(e & _ & ->)|[(m & _ & _ & ->)|
        [(m & p & token & Hm & _ & _ & Hs & ->)|
         (m & p & token & Hm & _ & _ & Hs & ->)]]].
  - left. split; [left; by exists e|]. by split.
  - left. split; [by right|]. by split.
  - right; left. exists m, token. by repeat split.
  - right; right. exists m, token. eexists. repeat split; try done.
    cbn [calls]. unfold action_calls. by rewrite decide_False by done.
Qed.

(** X2.  Two exceptions can escape [main], and no other: the [KeyError]
    of an omitted provider, raised before any call, and the [TypeError]
    of the [payload] call, raised when [state] is [present] and the
    provider is given.  The two templates never make [format] raise,
    and a supplied provider that passed the choices is a key of the
    table. *)
Theorem escaping_exceptions (raw : gmap string string) (apic : fabric) (e : exn) :
  result (main raw apic) = uncaught e →
  (e = KeyError None ∧
   resolve argument_spec raw !! "vm_provider" = None ∧
   calls (main raw apic) = [])
  ∨
  (e = TypeError "payload" "childConfigs" ∧
   resolve argument_spec raw !! "state" = Some "present" ∧
   ∃ p, resolve argument_spec raw !! "vm_provider" = Some p).
Proof.
  destruct (main_cases raw apic)
    as [(e' & _ & ->)|[(m & Hm & Hp & ->)|
        [(m & p & token & Hm & Hp & _ & Hs & ->)|
         (m & p & token & _ & _ & _ & _ & ->)]]];
    cbn [result abort]; intros [= <-];
    destruct (AnsibleModule_inr _ _ _ _ Hm) as (Hps & _ & _); rewrite <- Hps.
  - left. by repeat split.
  - right. repeat split; try done. by exists p.
Qed.

(** X3.  A run changes the fabric through at most one call:
    [post_config] is made only with [state] [present], [delete_config]
    only with [state] [absent], and the write calls of a run are none,
    the one or the other. *)
Theorem at_most_one_write (raw : gmap string string) (apic : fabric) :
  (filter (λ c, is_write c = true) (calls (main raw apic)) = [] ∨
   filter (λ c, is_write c = true) (calls (main raw apic)) = [post_config_call] ∨
   filter (λ c, is_write c = true) (calls (main raw apic)) = [delete_config_call]) ∧
  (post_config_call ∈ calls (main raw apic) →
   resolve argument_spec raw !! "state" = Some "present") ∧
  (delete_config_call ∈ calls (main raw apic) →
   resolve argument_spec raw !! "state" = Some "absent").
Proof.
  destruct (main_cases raw apic)
    as [(e & _ & ->)|[(m & _ & _ & ->)|
        [(m & p & token & Hm & _ & _ & Hs & ->)|
         (m & p & token & Hm & _ & _ & Hs & ->)]]];
    cbn [calls abort].
  - split; [by left|]. split; intros H; by apply elem_of_nil in H.
  - split; [by left|]. split; intros H; by apply elem_of_nil in H.
  - split; [by left|].
    split; intros H; repeat (apply elem_of_cons in H as [[=]|H]);
      by apply elem_of_nil in H.
  - destruct (AnsibleModule_inr _ _ _ _ Hm) as (Hps & _ & _). rewrite <- Hps.
    unfold action_calls. rewrite decide_False by done.
    destruct (decide (params m !! "state" = Some "absent")) as [Hs'|Hs'].
    + split; [right; by right|]. split; [|done].
      intros H. repeat (apply elem_of_cons in H as [[=]|H]).
      by apply elem_of_nil in H.
    + split; [by left|].
      split; intros H; repeat (apply elem_of_cons in H as [[=]|H]);
        by apply elem_of_nil in H.
Qed.

(** X4.  Every descriptor handed to [construct_url] has class
    [vmmCtrlrP], and its identifier, when set, is the relative name under
    the root [uni]. *)
Theorem descriptor_consistent (raw : gmap string string) (apic : fabric)
    (root : root_class) :
  construct_url_call root ∈ calls (main raw apic) →
  aci_class root = "vmmCtrlrP" ∧
  (module_object root = None ∨
   module_object root = Some ("uni/" +:+ aci_rn root)).
Proof.
  intros (m & p & token & _ & _ & _ & ->)%construct_url_in_calls.
  split; [done|]. unfold root_of. cbn [module_object aci_rn].
  destruct (params m !! "name"); [right|by left]. reflexivity.
Qed.

End shape.

Lemma escaping_exceptions_witness :
  (KeyError None = KeyError None ∧
   resolve argument_spec query_domain_only !! "vm_provider" = None ∧
   calls (main (client := spec_client list_all) query_domain_only ∅) = [])
  ∨
  (KeyError None = TypeError "payload" "childConfigs" ∧
   resolve argument_spec query_domain_only !! "state" = Some "present" ∧
   ∃ p, resolve argument_spec query_domain_only !! "vm_provider" = Some p).
Proof.
  apply (escaping_exceptions (client := spec_client list_all)
           query_domain_only ∅ (KeyError None)).
  vm_compute. reflexivity.
Defined.

Lemma descriptor_consistent_witness :
  aci_class (root_of {| params := resolve argument_spec example_present |} "VMware")
  = "vmmCtrlrP" ∧
  (module_object (root_of {| params := resolve argument_spec example_present |} "VMware")
   = None ∨
   module_object (root_of {| params := resolve argument_spec example_present |} "VMware")
   = Some ("uni/" +:+
           aci_rn (root_of {| params := resolve argument_spec example_present |} "VMware"))).
Proof.
  apply (descriptor_consistent (client := spec_client list_all) example_present ∅).
  erewrite main_raised; [|vm_compute; reflexivity..]. left.
Defined.

(** X5.  The calls of a run are decided by the arguments alone: [main]
    never looks at what the client returns, so two runs on the same
    arguments make the same calls and end the same way, whatever the
    client and whatever the fabric holds. *)
Theorem calls_independent_of_fabric {aci1 aci2 : Type}
    {client1 : ACIClient aci1} {client2 : ACIClient aci2}
    (raw : gmap string string) (apic1 apic2 : fabric) :
  calls (main (client := client1) raw apic1)
  = calls (main (client := client2) raw apic2) ∧
  (∀ e, result (main (client := client1) raw apic1) = fail_json e ↔
        result (main (client := client2) raw apic2) = fail_json e) ∧
  (∀ e, result (main (client := client1) raw apic1) = uncaught e ↔
        result (main (client := client2) raw apic2) = uncaught e) ∧
  ((∃ r, result (main (client := client1) raw apic1) = exited r) ↔
   (∃ r, result (main (client := client2) raw apic2) = exited r)).
Proof.
  destruct (main_cases (client := client1) raw apic1)
    as [(e & He & ->)|[(m & Hm & Hp & ->)|
        [(m & p & token & Hm & Hp & Htok & Hs & ->)|
         (m & p & token & Hm & Hp & Htok & Hs & ->)]]].
  - rewrite (main_rejected (client := client2) raw apic2 e He). cbn [calls result abort].
    repeat split; try done; intros [r [=]].
  - rewrite (main_provider_omitted (client := client2) raw apic2 m Hm Hp).
    cbn [calls result abort]. repeat split; try done; intros [r [=]].
  - rewrite (main_raised (client := client2) raw apic2 m p token Hm Hp Htok Hs).
    cbn [calls result]. repeat split; try done; intros [r [=]].
  - rewrite (main_exited (client := client2) raw apic2 m p token Hm Hp Htok Hs).
    cbn [calls result]. repeat split; try done; eauto.
Qed.

Section branches.
Context {aci : Type} {client : ACIClient aci}.

(** X6.  With [state] [absent] and a provider of the table, the run makes
    the calls [construct_url], [get_existing], [delete_config],
    [exit_json]: the delete follows the read whatever the read returned,
    no payload is assembled and nothing is posted.  The envelope is the
    client's report after the delete. *)
Theorem absent_run (raw : gmap string string) (apic : fabric) (m : module)
    (p token : string) :
  AnsibleModule argument_spec required_if raw = inr m →
  params m !! "state" = Some "absent" →
  params m !! "vm_provider" = Some p →
  dict_get VM_PROVIDER_MAPPING p = Some token →
  calls (main raw apic)
  = [construct_url_call (root_of m token); get_existing_call;
     delete_config_call; exit_json_call] ∧
  result (main raw apic)
  = exited (exit_json (delete_config (get_existing
              (construct_url (root_of m token) (ACIModule m apic))))) ∧
  apic_after (main raw apic)
  = apic_of (delete_config (get_existing
               (construct_url (root_of m token) (ACIModule m apic)))).
Proof.
  intros Hm Hstate Hp Htok.
  rewrite (main_exited raw apic m p token Hm Hp Htok)
    by (rewrite Hstate; discriminate).
  cbn [calls result apic_after].
  unfold action_calls, client_after, client_read. rewrite Hstate.
  rewrite !decide_False by discriminate. rewrite !decide_True by done. done.
Qed.

(** X14.  With [state] [present] and a provider of the table, the run
    hands over the descriptor, reads, and ends there: the [payload] call
    raises [TypeError] on the keyword [childConfigs], so no payload, diff
    or post is made, [exit_json] is not reached, and the fabric is as the
    read left it. *)
Theorem present_run (raw : gmap string string) (apic : fabric) (m : module)
    (p token : string) :
  AnsibleModule argument_spec required_if raw = inr m →
  params m !! "state" = Some "present" →
  params m !! "vm_provider" = Some p →
  dict_get VM_PROVIDER_MAPPING p = Some token →
  result (main raw apic) = uncaught (TypeError "payload" "childConfigs") ∧
  calls (main raw apic)
  = [construct_url_call (root_of m token); get_existing_call] ∧
  filter (λ c, is_mutating c = true) (calls (main raw apic)) = [] ∧
  (exit_json_call ∉ calls (main raw apic)) ∧
  apic_after (main raw apic)
  = apic_of (get_existing (construct_url (root_of m token) (ACIModule m apic))).
Proof.
  intros Hm Hstate Hp Htok.
  rewrite (main_raised raw apic m p token Hm Hp Htok Hstate).
  cbn [result calls apic_after]. repeat split; try done.
  intros H. repeat (apply elem_of_cons in H as [[=]|H]). by apply elem_of_nil in H.
Qed.

(** X8.  An accepted input without a domain is a query, and the text
    [None] stands in for the domain: the relative name is
    [vmmp-<token>/dom-None/ctrlr-<name>] and a name that is given yields
    the identifier [uni/vmmp-<token>/dom-None/ctrlr-<name>]. *)
Theorem query_without_domain (raw : gmap string string) (apic : fabric)
    (m : module) (p token : string) :
  AnsibleModule argument_spec required_if raw = inr m →
  params m !! "domain" = None →
  params m !! "vm_provider" = Some p →
  dict_get VM_PROVIDER_MAPPING p = Some token →
  params m !! "state" = Some "query" ∧
  calls (main raw apic)
  = [ construct_url_call
        {| aci_class := "vmmCtrlrP";
           aci_rn := "vmmp-" +:+ token +:+ "/dom-None/ctrlr-"
                     +:+ py_str (params m !! "name");
           module_object :=
             match params m !! "name" with
             | None => None
             | Some n => Some ("uni/vmmp-" +:+ token +:+ "/dom-None/ctrlr-" +:+ n)
             end;
           target_filter := [("name", None); ("ctrlr", params m !! "name")] |};
      get_existing_call; exit_json_call ].
Proof.
  intros Hm Hdom Hp Htok.
  assert (params m !! "state" = Some "query") as Hstate.
  { destruct (accepted_state raw m Hm) as [Hs|[Hs|Hs]]; [| |done].
    - pose proof (accepted_domain raw m "absent" Hm Hs (or_intror eq_refl)) as H.
      by rewrite Hdom in H.
    - pose proof (accepted_domain raw m "present" Hm Hs (or_introl eq_refl)) as H.
      by rewrite Hdom in H. }
  split; [done|].
  rewrite (main_exited raw apic m p token Hm Hp Htok)
    by (rewrite Hstate; discriminate).
  cbn [calls].
  unfold action_calls, root_of, rn_of, dn_of. rewrite Hstate, Hdom.
  rewrite !decide_False by discriminate.
  destruct (params m !! "name"); reflexivity.
Qed.

(** X9.  A supplied [state] or [vm_provider] that is not one of its
    choices ends the run in a configuration error before any client
    call; the table is never subscripted with it. *)
Theorem illegal_choice_fails_fast (raw : gmap string string) (apic : fabric)
    (v : string) :
  (resolve argument_spec raw !! "vm_provider" = Some v ∧
   v ∉ keys VM_PROVIDER_MAPPING) ∨
  (resolve argument_spec raw !! "state" = Some v ∧
   v ∉ ["absent"; "present"; "query"]) →
  (∃ e, result (main raw apic) = fail_json e) ∧
  calls (main raw apic) = [] ∧
  apic_after (main raw apic) = apic.
Proof.
  intros Hbad.
  destruct (AnsibleModule argument_spec required_if raw) as [e|m] eqn:Hm.
  { rewrite (main_rejected raw apic e Hm). cbn [result calls apic_after abort]. eauto. }
  exfalso.
  destruct (AnsibleModule_inr _ _ _ _ Hm) as (Hps & _ & _).
  destruct Hbad as [[Hv Hnot]|[Hv Hnot]]; rewrite <- Hps in Hv.
  - destruct (accepted_vm_provider raw m v Hm Hv) as [token Htok].
    apply Hnot. apply mapping_tokens in Htok as [Hin _].
    unfold keys. apply list_elem_of_fmap. by exists (v, token).
  - destruct (accepted_state raw m Hm) as [Hs|[Hs|Hs]];
      rewrite Hv in Hs; injection Hs as ->; apply Hnot;
      apply (bool_decide_unpack _); by vm_compute.
Qed.

End branches.

Lemma absent_run_witness :
  calls (main (client := spec_client list_all) absent_without_name ∅)
  = [construct_url_call
       (root_of {| params := resolve argument_spec absent_without_name |} "VMware");
     get_existing_call; delete_config_call; exit_json_call].
Proof.
  refine (proj1 (absent_run (client := spec_client list_all) absent_without_name ∅
                   {| params := resolve argument_spec absent_without_name |}
                   "vmware" "VMware" _ _ _ _));
    vm_compute; reflexivity.
Defined.

Lemma present_run_witness :
  result (main (client := spec_client list_all) example_present ∅)
  = uncaught (TypeError "payload" "childConfigs").
Proof.
  refine (proj1 (present_run (client := spec_client list_all) example_present ∅
                   {| params := resolve argument_spec example_present |}
                   "vmware" "VMware" _ _ _ _));
    vm_compute; reflexivity.
Defined.

Lemma query_without_domain_witness :
  resolve argument_spec (delete "domain" example_query_all) !! "state" = Some "query".
Proof.
  refine (proj1 (query_without_domain (client := spec_client list_all)
                   (delete "domain" example_query_all) ∅
                   {| params := resolve argument_spec (delete "domain" example_query_all) |}
                   "vmware" "VMware" _ _ _ _));
    vm_compute; reflexivity.
Defined.

Lemma illegal_choice_fails_fast_witness :
  (∃ e, result (main (client := spec_client list_all)
                  (<["vm_provider" := "xen"]> example_present) ∅) = fail_json e) ∧
  calls (main (client := spec_client list_all)
           (<["vm_provider" := "xen"]> example_present) ∅) = [] ∧
  apic_after (main (client := spec_client list_all)
                (<["vm_provider" := "xen"]> example_present) ∅) = ∅.
Proof.
  apply (illegal_choice_fails_fast (client := spec_client list_all)
           (<["vm_provider" := "xen"]> example_present) ∅ "xen").
  left. split; [vm_compute; reflexivity|].
  intros Hin. apply (bool_decide_pack _) in Hin. vm_compute in Hin. exact Hin.
Defined.

(** ** Identifiers tell controllers apart *)

Lemma append_inv_head (x y y' : string) : x +:+ y = x +:+ y' → y = y'.
Proof.
  induction x as [|c x IH]; [done|].
  change (String c (x +:+ y) = String c (x +:+ y') → y = y').
  intros [= H]. by apply IH.
Qed.

(** Two strings cut at the first occurrence of a character agree on both
    sides of the cut. *)
Lemma append_sep_inj (x x' y y' : string) (c : ascii) :
  mem_char c x = false → mem_char c x' = false →
  x +:+ String c y = x' +:+ String c y' → x = x' ∧ y = y'.
Proof.
  revert x'. induction x as [|a x IH]; intros [|a' x'] Hx Hx'.
  - change (String c y = String c y' → "" = "" ∧ y = y'). by intros [= ->].
  - change (String c y = String a' (x' +:+ String c y') → "" = String a' x' ∧ y = y').
    intros [= -> _]. simpl in Hx'. by rewrite Ascii.eqb_refl in Hx'.
  - change (String a (x +:+ String c y) = String c y' → String a x = "" ∧ y = y').
    intros [= -> _]. simpl in Hx. by rewrite Ascii.eqb_refl in Hx.
  - change (String a (x +:+ String c y) = String a' (x' +:+ String c y')
            → String a x = String a' x' ∧ y = y').
    simpl in Hx, Hx'.
    apply orb_false_iff in Hx as [_ Hx]. apply orb_false_iff in Hx' as [_ Hx'].
    intros [= -> H]. destruct (IH x' Hx Hx' H) as [-> ->]. done.
Qed.

(** The table maps distinct providers to distinct tokens. *)
Lemma mapping_injective (p p' token : string) :
  dict_get VM_PROVIDER_MAPPING p = Some token →
  dict_get VM_PROVIDER_MAPPING p' = Some token →
  p = p'.
Proof.
  unfold VM_PROVIDER_MAPPING. simpl.
  repeat (case_decide; [intros [= <-]; subst p;
                        repeat (case_decide; [by intros; subst|]); done|]).
  done.
Qed.

Lemma dn_of_inj (token token' d d' n n' : string) :
  token ∈ values VM_PROVIDER_MAPPING → token' ∈ values VM_PROVIDER_MAPPING →
  mem_char "/" d = false → mem_char "/" d' = false →
  dn_of token (Some d) (Some n) = dn_of token' (Some d') (Some n') →
  token = token' ∧ d = d' ∧ n = n'.
Proof.
  intros Ht Ht' Hd Hd'.
  destruct (token_letters token Ht) as (_ & Hs & _).
  destruct (token_letters token' Ht') as (_ & Hs' & _).
  change ("uni/vmmp-" +:+ (token +:+ String "/" ("dom-" +:+ (d +:+ String "/" ("ctrlr-" +:+ n))))
          = "uni/vmmp-" +:+ (token' +:+ String "/" ("dom-" +:+ (d' +:+ String "/" ("ctrlr-" +:+ n'))))
          → token = token' ∧ d = d' ∧ n = n').
  intros H%append_inv_head.
  apply append_sep_inj in H as [-> H%append_inv_head]; [|done..].
  apply append_sep_inj in H as [-> H%append_inv_head]; [|done..].
  by subst.
Qed.

(** X10.  When the domains have no slash in them, the identifier
    determines the controller: two accepted inputs that hand the client
    the same identifier have the same provider, domain and name. *)
Theorem identifier_determines_controller
    {aci1 aci2 : Type} {client1 : ACIClient aci1} {client2 : ACIClient aci2}
    (raw raw' : gmap string string) (apic apic' : fabric) (m m' : module)
    (p p' token token' d d' n n' : string) :
  AnsibleModule argument_spec required_if raw = inr m →
  AnsibleModule argument_spec required_if raw' = inr m' →
  params m !! "vm_provider" = Some p → dict_get VM_PROVIDER_MAPPING p = Some token →
  params m' !! "vm_provider" = Some p' → dict_get VM_PROVIDER_MAPPING p' = Some token' →
  params m !! "domain" = Some d → mem_char "/" d = false →
  params m' !! "domain" = Some d' → mem_char "/" d' = false →
  params m !! "name" = Some n → params m' !! "name" = Some n' →
  identifiers (calls (main (client := client1) raw apic))
  = identifiers (calls (main (client := client2) raw' apic')) →
  p = p' ∧ d = d' ∧ n = n'.
Proof.
  intros Hm Hm' Hp Htok Hp' Htok' Hd Hsl Hd' Hsl' Hn Hn'.
  rewrite (identifiers_run raw apic m p token Hm Hp Htok).
  rewrite (identifiers_run raw' apic' m' p' token' Hm' Hp' Htok').
  unfold root_of. cbn [module_object].
  rewrite Hd, Hd', Hn, Hn'. intros H0.
  assert (dn_of token (Some d) (Some n) = dn_of token' (Some d') (Some n')) as H
    by congruence.
  apply dn_of_inj in H as (<- & <- & <-); try done;
    [|by apply (mapping_tokens p)|by apply (mapping_tokens p')].
  split; [|done]. by apply (mapping_injective p p' token).
Qed.

Lemma identifier_determines_controller_witness :
  "vmware" = "vmware" ∧ "vmware_dom" = "vmware_dom" ∧ "ctrl1" = "ctrl1".
Proof.
  apply (identifier_determines_controller
           (client1 := spec_client list_all) (client2 := spec_client list_all)
           example_present (<["description" := "lab"]> example_present) ∅ ∅
           {| params := resolve argument_spec example_present |}
           {| params := resolve argument_spec (<["description" := "lab"]> example_present) |}
           "vmware" "vmware" "VMware" "VMware");
    vm_compute; reflexivity.
Defined.

(** Without the condition on the domain two controllers can share an
    identifier. *)
Example identifier_clash :
  dn_of "VMware" (Some "a/ctrlr-b") (Some "c")
  = dn_of "VMware" (Some "a") (Some "b/ctrlr-c").
Proof. reflexivity. Qed.

(** ** Defaults and aliases *)

(** Resolution looks at the arguments only through the options. *)
Lemma resolve_ext spec (raw raw' : gmap string string) :
  (∀ k o, (k, o) ∈ spec → resolve_option raw k o = resolve_option raw' k o) →
  resolve spec raw = resolve spec raw'.
Proof.
  induction spec as [|[k o] spec IH]; intros H; [done|]. simpl.
  rewrite (H k o) by left. rewrite IH; [done|].
  intros k' o' Hin. apply H. by right.
Qed.

Lemma argument_spec_cases (k : string) (o : option_spec) :
  (k, o) ∈ argument_spec →
  (k, o) = ("name", str_option ["credential_name"; "credential_profile"]) ∨
  (k, o) = ("container", str_option ["datacenter"]) ∨
  (k, o) = ("credential", str_option ["credential_name, credential_profile"]) ∨
  (k, o) = ("description", str_option ["descr"]) ∨
  (k, o) = ("domain", str_option ["domain_name"; "domain_profile"]) ∨
  (k, o) = ("host_or_ip", str_option ["controller_hostname"; "controller_ip"]) ∨
  (k, o) = ("state",
            {| type := "str"; aliases := []; default_value := Some "present";
               choices := Some ["absent"; "present"; "query"] |}) ∨
  (k, o) = ("vm_provider",
            {| type := "str"; aliases := []; default_value := None;
               choices := Some (keys VM_PROVIDER_MAPPING) |}).
Proof.
  unfold argument_spec, update. simpl. intros Hin.
  repeat (apply elem_of_cons in Hin as [->|Hin]; [tauto|]).
  by apply elem_of_nil in Hin.
Qed.

Ltac split_spec H :=
  apply argument_spec_cases in H;
  destruct H as [H|[H|[H|[H|[H|[H|[H|H]]]]]]]; injection H as -> ->.

Ltac resolve_lookups :=
  unfold resolve_option, str_option;
  cbn [first_supplied aliases default_value];
  rewrite ?lookup_insert_eq, ?lookup_insert_ne by discriminate.

Section defaults.
Context {aci : Type} {client : ACIClient aci}.

(** X11.  Leaving [state] out is the same as asking for [present]: the
    two runs are equal. *)
Theorem state_defaults_to_present (raw : gmap string string) (apic : fabric) :
  raw !! "state" = None →
  main raw apic = main (<["state" := "present"]> raw) apic.
Proof.
  intros Hnone.
  assert (resolve argument_spec raw
          = resolve argument_spec (<["state" := "present"]> raw)) as Hres.
  { apply resolve_ext. intros k o Hin.
    split_spec Hin; resolve_lookups; by rewrite ?Hnone. }
  unfold main, AnsibleModule. by rewrite Hres.
Qed.

(** X12.  An option supplied under one of its aliases runs as the same
    option supplied under its own name, as long as the arguments hold no
    other spelling of it. *)
Theorem alias_runs_as_name (raw : gmap string string) (apic : fabric)
    (k a v : string) (o : option_spec) :
  (k, o) ∈ argument_spec → a ∈ aliases o →
  (∀ n, n ∈ k :: aliases o → raw !! n = None) →
  main (<[a := v]> raw) apic = main (<[k := v]> raw) apic.
Proof.
  intros Hin Ha Hnone. apply Forall_forall in Hnone.
  assert (resolve argument_spec (<[a := v]> raw)
          = resolve argument_spec (<[k := v]> raw)) as Hres.
  { apply resolve_ext. intros k' o' Hin'.
    split_spec Hin; cbn [aliases str_option] in Ha, Hnone;
      repeat (apply elem_of_cons in Ha as [->|Ha]);
      try (by apply elem_of_nil in Ha);
      repeat (apply Forall_cons in Hnone as [? Hnone]);
      split_spec Hin'; resolve_lookups;
      repeat match goal with H : raw !! _ = None |- _ => rewrite H end;
      reflexivity. }
  unfold main, AnsibleModule. by rewrite Hres.
Qed.

End defaults.

Lemma state_defaults_to_present_witness :
  main (client := spec_client list_all) (delete "state" example_present) ∅
  = main (client := spec_client list_all)
      (<["state" := "present"]> (delete "state" example_present)) ∅.
Proof.
  apply (state_defaults_to_present (client := spec_client list_all)
           (delete "state" example_present) ∅).
  vm_compute. reflexivity.
Defined.

Lemma alias_runs_as_name_witness :
  main (client := spec_client list_all)
    (<["datacenter" := "DC1"]> example_present) ∅
  = main (client := spec_client list_all)
      (<["container" := "DC1"]> example_present) ∅.
Proof.
  apply (alias_runs_as_name (client := spec_client list_all) example_present ∅
           "container" "datacenter" "DC1" (str_option ["datacenter"])).
  - apply (bool_decide_unpack _). vm_compute. exact I.
  - left.
  - intros n Hn.
    repeat (apply elem_of_cons in Hn as [->|Hn]; [vm_compute; reflexivity|]).
    by apply elem_of_nil in Hn.
Defined.

(** ** Writes *)

Section writes.
Context {aci : Type} {client : ACIClient aci}.

(** X13.  A call that changes the fabric is only made with a domain: a
    run that calls [post_config] or [delete_config] was given a domain,
    and that domain is the domain segment of the relative name it handed
    to [construct_url]. *)
Theorem write_needs_domain (raw : gmap string string) (apic : fabric) (c : call) :
  c ∈ calls (main raw apic) → is_write c = true →
  ∃ d root,
    resolve argument_spec raw !! "domain" = Some d ∧
    construct_url_call root ∈ calls (main raw apic) ∧
    contains ("/dom-" +:+ d +:+ "/ctrlr-") (aci_rn root) = true.
Proof.
  destruct (main_cases raw apic)
    as [(e & _ & ->)|[(m & _ & _ & ->)|
        [(m & p & token & Hm & _ & _ & Hs & ->)|
         (m & p & token & Hm & _ & _ & Hs & ->)]]];
    cbn [calls abort]; intros Hin Hw; try by apply elem_of_nil in Hin.
  { repeat (apply elem_of_cons in Hin as [->|Hin]; [done|]).
    by apply elem_of_nil in Hin. }
  destruct (AnsibleModule_inr _ _ _ _ Hm) as (Hps & _ & _). rewrite <- Hps.
  assert (params m !! "state" = Some "absent") as Hstate.
  { unfold action_calls in Hin. rewrite decide_False in Hin by done.
    case_decide; [done|].
    repeat (apply elem_of_cons in Hin as [->|Hin]; [done|]).
    by apply elem_of_nil in Hin. }
  pose proof (accepted_domain raw m "absent" Hm Hstate (or_intror eq_refl)) as Hdom.
  destruct (params m !! "domain") as [d|] eqn:Hd; [|done].
  exists d, (root_of m token). split; [done|]. split; [left|].
  unfold root_of, rn_of. cbn [aci_rn]. rewrite Hd. cbn [py_str default].
  pose proof (contains_app ("/dom-" +:+ d +:+ "/ctrlr-") ("vmmp-" +:+ token)
                (py_str (params m !! "name"))) as Hc.
  by rewrite !append_assoc_r in Hc.
Qed.

End writes.

Lemma write_needs_domain_witness :
  ∃ d root,
    resolve argument_spec absent_without_name !! "domain" = Some d ∧
    construct_url_call root
      ∈ calls (main (client := spec_client list_all) absent_without_name ∅) ∧
    contains ("/dom-" +:+ d +:+ "/ctrlr-") (aci_rn root) = true.
Proof.
  apply (write_needs_domain (client := spec_client list_all) absent_without_name ∅
           delete_config_call).
  - erewrite main_exited; [|vm_compute; reflexivity|vm_compute; reflexivity
                           |vm_compute; reflexivity|by vm_compute].
    cbn [calls]. do 2 (apply elem_of_cons; right). apply elem_of_app; left.
    unfold action_calls. rewrite decide_False by (by vm_compute).
    rewrite decide_True by (vm_compute; reflexivity). left.
  - reflexivity.
Defined.
